(** * Slowpoke GUI: the table-to-protocol compiler of [app_version2.py]

    A shallow embedding of the data functions of the Streamlit application
    (cell normalisation, header detection, plate-map and combination
    building, referential validation, protocol assembly) and of the two
    button handlers of [main], followed by the properties of the
    specification that were checked against them.

    Conventions of the embedding.
    - A Python [str] is the list of its Unicode code points.
    - A cell of a [DataFrame] is the Python object that iterating the frame
      yields: text, an integer, a float, a boolean, or one of the two
      missing markers of pandas, the float [nan] ([NaN], what [read_csv]
      leaves for an absent field) and [pd.NA] ([NA], what [sanitize_df]
      writes).  A row is the Series the loops get from [iterrows]: its
      cells are what [tolist] and iteration yield, which are Python objects.
      Indexing is different: [row[0]] of a Series of integers, or of
      booleans, is a numpy scalar ([numpy.int64], [numpy.bool_]), which is
      equal to the Python value and is not a Python [int] or [bool].  A
      row read from a table is such a Series exactly when all its cells are
      integers, or all are booleans (a table with a text or float column
      gives object or float rows, whose items are Python objects or
      [numpy.float64], which is a Python [float]).
    - A frame read by [pd.read_csv] always has a column 0 (an input without
      columns raises [EmptyDataError] before any function below runs), so a
      row is its cell in column 0 together with the remaining cells.
    - Exceptions are values of [result]. *)

From Stdlib Require Import ZArith NArith QArith List String Ascii Bool Lia.
From Stdlib Require Import DecimalString Sorted Permutation.
From stdpp Require Import gmap.
Import ListNotations.

Set Warnings "-register-all".

Open Scope Z_scope.

(** ** Text *)

Definition char := N.
Definition str := list char.

(** The text of a literal of the source. *)
Definition py (s : string) : str :=
  List.map N_of_ascii (list_ascii_of_string s).

Definition in_range (lo hi : N) (c : char) : bool := ((lo <=? c) && (c <=? hi))%N.

(** [Py_UNICODE_ISSPACE]: the characters removed by [str.strip()] and
    matched by [\s] in a [str] pattern. *)
Definition isspace (c : char) : bool :=
  in_range 9 13 c || in_range 28 32 c || (c =? 133)%N || (c =? 160)%N
  || (c =? 5760)%N || in_range 8192 8202 c || (c =? 8232)%N || (c =? 8233)%N
  || (c =? 8239)%N || (c =? 8287)%N || (c =? 12288)%N.

Fixpoint lstrip (s : str) : str :=
  match s with
  | [] => []
  | c :: s' => if isspace c then lstrip s' else s
  end.

Definition rstrip (s : str) : str := rev (lstrip (rev s)).

(** [s.strip()] *)
Definition strip (s : str) : str := rstrip (lstrip s).

(** [$] without [re.MULTILINE]: at the end of the text, or just before a
    newline that ends the text. *)
Definition at_dollar (rest : str) : bool :=
  match rest with
  | [] => true
  | [c] => (c =? 10)%N
  | _ => false
  end.

(** [re.search(r'^\s*$', s) is not None]: some number of leading
    whitespace characters brings the match to a position where [$] holds. *)
Fixpoint re_blank (s : str) : bool :=
  at_dollar s
  || match s with
     | [] => false
     | c :: s' => isspace c && re_blank s'
     end.

(** ** Cells and frames *)

(** A float that is not [nan]: [(-1)^neg * m * 2^e], the zeros and the
    infinities. *)
Inductive pyfloat : Type :=
| FZero (neg : bool)
| FInf (neg : bool)
| FFinite (neg : bool) (m : positive) (e : Z).

Inductive scalar : Type :=
| Str (s : str)
| Int (z : Z)
| Float (f : pyfloat)
| Bool (b : bool).

Inductive cell : Type :=
| NaN
| NA
| Val (v : scalar).

(** [pd.notna(x)] and [pd.isna(x)] *)
Definition notna (x : cell) : bool :=
  match x with
  | Val _ => true
  | NaN | NA => false
  end.

Definition isna (x : cell) : bool := negb (notna x).

Record Row : Type := mkRow { row0 : cell; row_rest : list cell }.

(** [row.tolist()] *)
Definition tolist (r : Row) : list cell := row0 r :: row_rest r.

Definition DataFrame := list Row.

(** [df.shape] as (rows, cells of each row) *)
Definition dimensions (df : DataFrame) : nat * list nat :=
  (List.length df, List.map (fun r => List.length (tolist r)) df).

(** ** sanitize_df *)

(** [lambda x: x.strip() if isinstance(x, str) else x] *)
Definition strip_if_str (x : cell) : cell :=
  match x with
  | Val (Str s) => Val (Str (strip s))
  | _ => x
  end.

(** [df.applymap(f)] *)
Definition applymap (f : cell -> cell) (df : DataFrame) : DataFrame :=
  List.map (fun r => mkRow (f (row0 r)) (List.map f (row_rest r))) df.

(** [df.replace(r'^\s*$', pd.NA, regex=True)]: a regular expression is
    only tried on text cells. *)
Definition replace_blank (df : DataFrame) : DataFrame :=
  applymap (fun x => match x with
                     | Val (Str s) => if re_blank s then NA else x
                     | _ => x
                     end) df.

(** [df.copy()] *)
Definition copy (df : DataFrame) : DataFrame := df.

Definition sanitize_df (df : DataFrame) : DataFrame :=
  let df := copy df in
  let df := applymap strip_if_str df in
  let df := replace_blank df in
  df.

(** The same function over an object store: [df.copy()], [df.applymap(..)]
    and [df.replace(..)] each build a new frame, and the local name [df]
    is rebound to it; the caller's frame is only read. *)
Definition loc := positive.

Definition alloc (h : gmap loc DataFrame) (v : DataFrame)
  : gmap loc DataFrame * loc :=
  let l := fresh (dom h) in (<[l := v]> h, l).

Definition sanitize_df_store (h : gmap loc DataFrame) (df : loc)
  : option (gmap loc DataFrame * loc) :=
  match h !! df with
  | None => None
  | Some v =>
      let '(h, df) := alloc h (copy v) in
      match h !! df with
      | None => None
      | Some v =>
          let '(h, df) := alloc h (applymap strip_if_str v) in
          match h !! df with
          | None => None
          | Some v =>
              let '(h, df) := alloc h (replace_blank v) in
              Some (h, df)
          end
      end
  end.

(** ** Plate maps and combinations *)

Definition PlateMap := list (list scalar).

(** [[x for x in l if pd.notna(x)]] *)
Fixpoint notna_values (l : list cell) : list scalar :=
  match l with
  | [] => []
  | Val v :: l' => v :: notna_values l'
  | _ :: l' => notna_values l'
  end.

Definition process_plate_map_df (df : DataFrame) : PlateMap :=
  fold_left
    (fun plate_map row =>
       if notna (row0 row) then
         let clean_row := notna_values (tolist row) in
         plate_map ++ [clean_row]
       else plate_map)
    df [].

(** A [dict] with text keys, in insertion order. *)
Inductive dict (V : Type) : Type := Dict (items : list (str * V)).
Arguments Dict {V} items.

Definition items {V} (d : dict V) : list (str * V) := let 'Dict l := d in l.
Definition keys {V} (d : dict V) : list str := List.map fst (items d).
Definition values {V} (d : dict V) : list V := List.map snd (items d).

(** [d[k]] *)
Fixpoint lookup_items {V} (k : str) (l : list (str * V)) : option V :=
  match l with
  | [] => None
  | (k', v) :: l' => if decide (k = k') then Some v else lookup_items k l'
  end.

Definition get {V} (d : dict V) (k : str) : option V := lookup_items k (items d).

Definition generate_plate_maps (df1 df2 : DataFrame) : dict PlateMap :=
  Dict [ (py "PlateMap1", process_plate_map_df df1);
         (py "PlateMap2", process_plate_map_df df2) ].

(** A numpy scalar. *)
Inductive numpy_scalar : Type :=
| Int64 (z : Z)
| Bool_ (b : bool).

(** What indexing a row returns: a Python object or a numpy scalar. *)
Inductive item : Type :=
| Py (v : scalar)
| Np (x : numpy_scalar).

Coercion Py : scalar >-> item.

(** The Python value an item is equal to. *)
Definition item_value (x : item) : scalar :=
  match x with
  | Py v => v
  | Np (Int64 z) => Int z
  | Np (Bool_ b) => Bool b
  end.

(** The dtype of a row as a Series, as far as indexing shows it. *)
Inductive dtype : Type := int64 | bool_ | object_.

Definition series_dtype (row : Row) : dtype :=
  if forallb (fun x => match x with Val (Int _) => true | _ => false end)
       (tolist row)
  then int64
  else if forallb (fun x => match x with Val (Bool _) => true | _ => false end)
            (tolist row)
  then bool_
  else object_.

(** [row[0]], where the cell in column 0 is [v]. *)
Definition getitem0 (row : Row) (v : scalar) : item :=
  match series_dtype row, v with
  | int64, Int z => Np (Int64 z)
  | bool_, Bool b => Np (Bool_ b)
  | _, _ => Py v
  end.

(** [{"name": name, "parts": parts}] *)
Record Combination : Type := mkCombination { name : item; parts : list scalar }.

Definition generate_combinations (df : DataFrame) : list Combination :=
  fold_left
    (fun combos row =>
       match row0 row with
       | Val v =>
           let name := getitem0 row v in
           let parts := notna_values (row_rest row) in
           combos ++ [ {| name := name; parts := parts |} ]
       | _ => combos
       end)
    df [].

(** ** Comparison of Python values *)

(** The exact value of a number, where the comparisons of Python between
    [int], [bool] and [float] are decided. *)
Inductive number : Type := NegInf | Fin (q : Q) | PosInf.

Definition dyadic (m e : Z) : Q :=
  if 0 <=? e then inject_Z (m * 2 ^ e)
  else Qmake m (Pos.pow 2 (Z.to_pos (- e))).

Definition float_value (f : pyfloat) : number :=
  match f with
  | FZero _ => Fin 0
  | FInf true => NegInf
  | FInf false => PosInf
  | FFinite true m e => Fin (dyadic (Z.neg m) e)
  | FFinite false m e => Fin (dyadic (Z.pos m) e)
  end.

Definition number_eqb (a b : number) : bool :=
  match a, b with
  | NegInf, NegInf | PosInf, PosInf => true
  | Fin p, Fin q => Qeq_bool p q
  | _, _ => false
  end.

Definition number_ltb (a b : number) : bool :=
  match a, b with
  | NegInf, NegInf => false
  | NegInf, _ => true
  | Fin _, NegInf => false
  | Fin p, Fin q => negb (Qle_bool q p)
  | Fin _, PosInf => true
  | PosInf, _ => false
  end.

Definition str_eqb (s t : str) : bool := bool_decide (s = t).

(** [s < t] on text: the first differing code point decides, a proper
    prefix is smaller. *)
Fixpoint str_ltb (s t : str) : bool :=
  match s, t with
  | _, [] => false
  | [], _ :: _ => true
  | a :: s', b :: t' => (a <? b)%N || ((a =? b)%N && str_ltb s' t')
  end.

Definition value_of (v : scalar) : option number :=
  match v with
  | Str _ => None
  | Int z => Some (Fin (inject_Z z))
  | Float f => Some (float_value f)
  | Bool b => Some (Fin (inject_Z (if b then 1 else 0)))
  end.

(** [a == b] *)
Definition py_eq (a b : scalar) : bool :=
  match a, b with
  | Str s, Str t => str_eqb s t
  | _, _ =>
      match value_of a, value_of b with
      | Some x, Some y => number_eqb x y
      | _, _ => false
      end
  end.

Inductive exn : Type := TypeError | UnicodeDecodeError.

Inductive result (A : Type) : Type :=
| Ok (a : A)
| Raise (e : exn).
Arguments Ok {A} a.
Arguments Raise {A} e.

#[global] Instance result_ret : MRet result := fun A a => Ok a.

#[global] Instance result_bind : MBind result :=
  fun A B k r =>
    match r with
    | Ok a => k a
    | Raise e => Raise e
    end.

(** [a < b]: text against a number has no order and raises [TypeError]. *)
Definition py_lt (a b : scalar) : result bool :=
  match a, b with
  | Str s, Str t => Ok (str_ltb s t)
  | _, _ =>
      match value_of a, value_of b with
      | Some x, Some y => Ok (number_ltb x y)
      | _, _ => Raise TypeError
      end
  end.

(** ** Sets and sorting *)

(** A Python [set]: its elements, pairwise different under [==]. *)
Definition pyset := list scalar.

(** [x in s] *)
Definition contains (s : pyset) (x : scalar) : bool := existsb (py_eq x) s.

(** [s.add(x)] *)
Definition add (s : pyset) (x : scalar) : pyset :=
  if contains s x then s else s ++ [x].

(** [sorted(l)]: a stable sort that only asks [<]; the first comparison
    that raises ends it. *)
Fixpoint insert_sorted (x : scalar) (l : list scalar) : result (list scalar) :=
  match l with
  | [] => Ok [x]
  | y :: l' =>
      b ← py_lt y x;
      if b : bool then l'' ← insert_sorted x l'; Ok (y :: l'')
      else Ok (x :: l)
  end.

Fixpoint sorted (l : list scalar) : result (list scalar) :=
  match l with
  | [] => Ok []
  | x :: l' => s ← sorted l'; insert_sorted x s
  end.

(** ** find_missing_parts_in_maps *)

Definition available_parts (plate_maps_dict : dict PlateMap) : pyset :=
  fold_left
    (fun available plate =>
       fold_left
         (fun available row =>
            fold_left
              (fun available item =>
                 if notna (Val item) then add available item else available)
              row available)
         plate available)
    (values plate_maps_dict) [].

Definition missing_parts (combos_list : list Combination) (available : pyset)
  : pyset :=
  fold_left
    (fun missing combo =>
       fold_left
         (fun missing part =>
            if negb (contains available part) then add missing part
            else missing)
         (parts combo) missing)
    combos_list [].

Definition find_missing_parts_in_maps (combos_list : list Combination)
    (plate_maps_dict : dict PlateMap) : result (list scalar) :=
  let available := available_parts plate_maps_dict in
  let missing := missing_parts combos_list available in
  sorted missing.

(** ** json.dumps *)

(** Python objects as [json.dumps] sees them. *)
Inductive pyobj : Type :=
| PVal (v : scalar)
| PNumpy (x : numpy_scalar)
| PList (l : list pyobj)
| PDict (d : list (str * pyobj)).

Class AsObject (A : Type) := as_object : A -> pyobj.

#[global] Instance scalar_object : AsObject scalar := PVal.

#[global] Instance item_object : AsObject item :=
  fun x => match x with
           | Py v => PVal v
           | Np x => PNumpy x
           end.

#[global] Instance list_object {A} `{AsObject A} : AsObject (list A) :=
  fun l => PList (List.map as_object l).

#[global] Instance dict_object {V} `{AsObject V} : AsObject (dict V) :=
  fun d => PDict (List.map (fun kv => (fst kv, as_object (snd kv))) (items d)).

#[global] Instance combination_object : AsObject Combination :=
  fun c => PDict [ (py "name", as_object (name c));
                   (py "parts", as_object (parts c)) ].

Definition hex_digit (n : N) : char :=
  nth (N.to_nat n) (py "0123456789abcdef") 48%N.

(** A backslash, [u] and four hexadecimal digits. *)
Definition escape_u (c : N) : str :=
  [92; 117; hex_digit (c / 4096 mod 16); hex_digit (c / 256 mod 16);
   hex_digit (c / 16 mod 16); hex_digit (c mod 16)]%N.

(** One character of a JSON string with [ensure_ascii=True]. *)
Definition escape_char (c : char) : str :=
  if (c =? 34)%N then [92; 34]%N
  else if (c =? 92)%N then [92; 92]%N
  else if (c =? 10)%N then [92; 110]%N
  else if (c =? 13)%N then [92; 114]%N
  else if (c =? 9)%N then [92; 116]%N
  else if (c =? 12)%N then [92; 102]%N
  else if (c =? 8)%N then [92; 98]%N
  else if in_range 32 126 c then [c]
  else if (c <? 65536)%N then escape_u c
  else
    let v := (c - 65536)%N in
    escape_u (N.lor 55296 (N.land (N.shiftr v 10) 1023))
    ++ escape_u (N.lor 56320 (N.land v 1023)).

Definition json_string (s : str) : str :=
  [34%N] ++ List.concat (List.map escape_char s) ++ [34%N].

(** [sep.join(l)] *)
Fixpoint join (sep : str) (l : list str) : str :=
  match l with
  | [] => []
  | [x] => x
  | x :: l' => x ++ sep ++ join sep l'
  end.

(** A list comprehension whose element expression may raise: the first
    exception ends it. *)
Definition map_result {A B} (f : A -> result B) : list A -> result (list B) :=
  fix go (l : list A) : result (list B) :=
    match l with
    | [] => Ok []
    | x :: l' =>
        match f x with
        | Raise e => Raise e
        | Ok y =>
            match go l' with
            | Raise e => Raise e
            | Ok ys => Ok (y :: ys)
            end
        end
    end.

(** [int.__repr__] *)
Definition int_repr (z : Z) : str := py (NilZero.string_of_int (Z.to_int z)).

Record UploadedFile : Type := { getvalue : list Byte.byte }.

Inductive header_mode : Type := Yes | No.

(** What a press of a "Generate" button leaves on the page. *)
Inductive outcome : Type :=
| UploadAllFiles
| MissingParts (missing : list scalar)
| MaxCombinations (preview : list Combination)
| ProtocolReady (preview : list Combination) (file_name : str) (data : str)
| ErrorMessage (e : exn).

(** [df.iloc[1:].reset_index(drop=True)] *)
Definition drop_first_row (df : DataFrame) : DataFrame := skipn 1 df.

Section Interpreter.

(** Three services of the interpreter are taken as given:
    [float.__repr__] on a finite float, [bytes.decode("utf-8")], and the
    class [\d] of decimal digits of its Unicode tables. *)
Variable float_repr : pyfloat -> str.
Variable decode_utf8 : list Byte.byte -> result str.
Variable isdecimal : char -> bool.

Definition json_scalar (v : scalar) : str :=
  match v with
  | Str s => json_string s
  | Int z => int_repr z
  | Float (FInf false) => py "Infinity"
  | Float (FInf true) => py "-Infinity"
  | Float f => float_repr f
  | Bool true => py "true"
  | Bool false => py "false"
  end.

(** [json.dumps(o)]: a numpy scalar is not JSON serializable. *)
Fixpoint json_dumps (o : pyobj) : result str :=
  match o with
  | PVal v => Ok (json_scalar v)
  | PNumpy _ => Raise TypeError
  | PList l =>
      match map_result json_dumps l with
      | Raise e => Raise e
      | Ok chunks => Ok (py "[" ++ join (py ", ") chunks ++ py "]")
      end
  | PDict d =>
      match
        map_result
          (fun kv =>
             match json_dumps (snd kv) with
             | Raise e => Raise e
             | Ok chunk => Ok (json_string (fst kv) ++ py ": " ++ chunk)
             end)
          d
      with
      | Raise e => Raise e
      | Ok chunks => Ok (py "{" ++ join (py ", ") chunks ++ py "}")
      end
  end.

(** ** create_protocol *)

Definition create_protocol (dict_obj combos_list : pyobj)
    (template_file : UploadedFile) (dict_name combos_name : str)
  : result str :=
  template_str ← decode_utf8 (getvalue template_file);
  dict_json ← json_dumps dict_obj;
  let header := ((dict_name ++ py " = ") ++ dict_json) ++ [10; 10]%N in
  combos_json ← json_dumps combos_list;
  let header :=
    header ++ (((combos_name ++ py " = ") ++ combos_json) ++ [10; 10]%N) in
  Ok (header ++ template_str).

(** ** detect_header_row *)

Definition ascii_letter (c : char) : bool :=
  in_range 65 90 c || in_range 97 122 c.

(** [re.search(r'[A-Za-z]', s)] *)
Definition has_letter (s : str) : bool := existsb ascii_letter s.

(** Past the longest run of digits. *)
Fixpoint skip_digits (s : str) : str :=
  match s with
  | [] => []
  | c :: s' => if isdecimal c then skip_digits s' else s
  end.

(** [re.fullmatch(r"\d+(?:\.\d+)?", s)] *)
Definition fullmatch_decimal (s : str) : bool :=
  match s with
  | [] => false
  | c :: _ =>
      isdecimal c
      && match skip_digits s with
         | [] => true
         | d :: [] => false
         | d :: (f :: _) as frac =>
             (d =? 46)%N && isdecimal f
             && match skip_digits frac with [] => true | _ => false end
         end
  end.

(** [isinstance(other, (int, float)) or (isinstance(other, str) and
    re.fullmatch(.., other.strip()))]; [bool] is a subclass of [int]. *)
Definition looks_numeric (other : scalar) : bool :=
  match other with
  | Int _ | Float _ | Bool _ => true
  | Str s => fullmatch_decimal (strip s)
  end.

(** [rest.iloc[:, col_idx]] *)
Definition column (rest : DataFrame) (col_idx : nat) : list cell :=
  List.map (fun r => nth col_idx (tolist r) NaN) rest.

(** The inner loop: [true] when it returns [True]. *)
Fixpoint scan_below (others : list cell) : bool :=
  match others with
  | [] => false
  | other :: others' =>
      match other with
      | Val v => if looks_numeric v then true else scan_below others'
      | _ => scan_below others'
      end
  end.

(** The outer loop over [enumerate(first)]. *)
Fixpoint scan_first (cells : list (nat * cell)) (rest : DataFrame) : bool :=
  match cells with
  | [] => false
  | (col_idx, cell) :: cells' =>
      match cell with
      | Val (Str s) =>
          if has_letter s then
            if scan_below (column rest col_idx) then true
            else scan_first cells' rest
          else scan_first cells' rest
      | _ => scan_first cells' rest
      end
  end.

(** [enumerate(l)] *)
Definition enumerate {A} (l : list A) : list (nat * A) :=
  combine (seq 0 (List.length l)) l.

Definition detect_header_row (df : DataFrame) : bool :=
  if (List.length df <? 2)%nat then false
  else
    match df with
    | [] => false
    | first :: rest => scan_first (enumerate (tolist first)) rest
    end.

(** ** The two button handlers of [main] *)

(** Each [file_*] argument is [None] when nothing was uploaded; a table
    upload is given by the frame [pd.read_csv(file, header=None)] reads
    from it. *)
Definition golden_gate (file_fix file_cust file_comb : option DataFrame)
    (file_tpl : option UploadedFile) (header_mode_gg : header_mode)
  : outcome :=
  match file_fix, file_cust, file_comb, file_tpl with
  | Some df1, Some df2, Some df3, Some file_tpl =>
      let df1 := sanitize_df df1 in
      let df2 := sanitize_df df2 in
      let df3 := sanitize_df df3 in
      let '(df1, df2, df3) :=
        match header_mode_gg with
        | Yes => (drop_first_row df1, drop_first_row df2, drop_first_row df3)
        | No => (df1, df2, df3)
        end in
      let dna_dict := generate_plate_maps df1 df2 in
      let combos := generate_combinations df3 in
      match find_missing_parts_in_maps combos dna_dict with
      | Raise e => ErrorMessage e
      | Ok ((_ :: _) as missing) => MissingParts missing
      | Ok [] =>
          if (96 <? List.length combos)%nat then MaxCombinations combos
          else
            match create_protocol (as_object dna_dict) (as_object combos)
                    file_tpl (py "dna_plate_map_dict")
                    (py "combinations_to_make") with
            | Raise e => ErrorMessage e
            | Ok proto =>
                ProtocolReady combos (py "golden_gate_protocol.py") proto
            end
      end
  | _, _, _, _ => UploadAllFiles
  end.

Definition colony_pcr (file_colony file_deck file_recipe : option DataFrame)
    (file_pcr_tpl : option UploadedFile) (header_mode_pcr : header_mode)
  : outcome :=
  match file_colony, file_deck, file_recipe, file_pcr_tpl with
  | Some df_col, Some df_deck, Some df_rec, Some file_pcr_tpl =>
      let df_col := sanitize_df df_col in
      let df_deck := sanitize_df df_deck in
      let df_rec := sanitize_df df_rec in
      let df_rec :=
        match header_mode_pcr with
        | Yes => drop_first_row df_rec
        | No => df_rec
        end in
      let colony_map := process_plate_map_df df_col in
      let deck_map := process_plate_map_df df_deck in
      let pcr_dict :=
        Dict [ (py "colony_template_map", colony_map);
               (py "pcr_deck_map", deck_map) ] in
      let combos_pcr := generate_combinations df_rec in
      match find_missing_parts_in_maps combos_pcr pcr_dict with
      | Raise e => ErrorMessage e
      | Ok ((_ :: _) as missing) => MissingParts missing
      | Ok [] =>
          match create_protocol (as_object pcr_dict) (as_object combos_pcr)
                  file_pcr_tpl (py "pcr_deck_colony_template_maps_dict")
                  (py "pcr_recipe_to_make") with
          | Raise e => ErrorMessage e
          | Ok proto_pcr =>
              ProtocolReady combos_pcr (py "colony_pcr_protocol.py") proto_pcr
          end
      end
  | _, _, _, _ => UploadAllFiles
  end.

End Interpreter.

(** ** The behaviour in the words of the specification *)

(** 4.1: a text cell is stripped, and becomes the empty marker when nothing
    is left; any other cell passes through. *)
Definition spec_normalize (x : cell) : cell :=
  match x with
  | Val (Str s) =>
      match strip s with
      | [] => NA
      | (_ :: _) as t => Val (Str t)
      end
  | _ => x
  end.

(** 4.3: the rows whose first cell is not empty, each reduced to its cells
    that are not empty. *)
Definition spec_plate_map (df : DataFrame) : list (list cell) :=
  List.map (fun r => List.filter notna (tolist r))
    (List.filter (fun r => notna (row0 r)) df).

(** A normalised table: normalising a cell of it changes nothing. *)
Definition normalized_table (df : DataFrame) : Prop :=
  Forall (fun r => Forall (fun x => spec_normalize x = x) (tolist r)) df.

(** 4.2: digits, or digits, one decimal point and digits; no sign and no
    exponent. *)
Definition decimal_text (isdecimal : char -> bool) (t : str) : Prop :=
  exists ds : str,
    ds <> [] /\ forallb isdecimal ds = true
    /\ (t = ds
        \/ exists fs : str,
             fs <> [] /\ forallb isdecimal fs = true /\ t = ds ++ 46%N :: fs).

Definition numeric_like (isdecimal : char -> bool) (v : scalar) : Prop :=
  match v with
  | Str t => decimal_text isdecimal t
  | Int _ | Float _ | Bool _ => True
  end.

(** 4.2: some column has text with a letter in the first row and, further
    down, a cell that is not empty and is a number or reads as one. *)
Definition header_like (isdecimal : char -> bool) (df : DataFrame) : Prop :=
  exists (first : Row) (rest : DataFrame) (j : nat) (s : str),
    df = first :: rest
    /\ nth_error (tolist first) j = Some (Val (Str s))
    /\ (exists c, In c s /\ ascii_letter c = true)
    /\ exists (r : Row) (v : scalar),
         In r rest /\ nth_error (tolist r) j = Some (Val v)
         /\ numeric_like isdecimal v.

(** The digits of ASCII, the part of the class [\d] that needs no table. *)
Definition ascii_digit (c : char) : bool := in_range 48 57 c.

(** 4.5: the parts some combination refers to, the values some plate map
    holds, and a part that equals none of them. *)
Definition referenced (combos_list : list Combination) (p : scalar) : Prop :=
  exists combo, In combo combos_list /\ In p (parts combo).

Definition in_maps (plate_maps_dict : dict PlateMap) (item : scalar) : Prop :=
  exists plate row,
    In plate (values plate_maps_dict) /\ In row plate /\ In item row.

Definition absent (plate_maps_dict : dict PlateMap) (p : scalar) : Prop :=
  forall item, in_maps plate_maps_dict item -> py_eq p item = false.

(** [a < b] holds. *)
Definition lt (a b : scalar) : Prop := py_lt a b = Ok true.

Definition is_text (v : scalar) : bool :=
  match v with
  | Str _ => true
  | Int _ | Float _ | Bool _ => false
  end.

(** All text, or all numbers: the lists [sorted] can order. *)
Definition uniform (l : list scalar) : bool :=
  forallb is_text l || forallb (fun v => negb (is_text v)) l.

(** No two elements are equal under [==]. *)
Definition distinct (l : list scalar) : Prop :=
  ForallOrdPairs (fun a b => py_eq a b = false) l.

(** A text cell, and text for the examples written with ['] where it has a
    double quote. *)
Definition text (s : string) : cell := Val (Str (py s)).

Definition dq (s : string) : str :=
  List.map (fun c => if (c =? 39)%N then 34%N else c) (py s).

(** An object that holds a numpy scalar, at any depth. *)
Fixpoint has_numpy (o : pyobj) : bool :=
  match o with
  | PVal _ => false
  | PNumpy _ => true
  | PList l => existsb has_numpy l
  | PDict d => existsb (fun kv => has_numpy (snd kv)) d
  end.

(** A combination whose name is a numpy scalar. *)
Definition numpy_name (c : Combination) : bool :=
  match name c with
  | Np _ => true
  | Py _ => false
  end.

(** ** Vocabulary of the further properties *)

(** Printable ASCII, which excludes the line break. *)
Definition printable (c : char) : bool := in_range 32 126 c.

(** Text that is not empty and has no whitespace at either end. *)
Definition trimmed (t : str) : bool :=
  match t with
  | [] => false
  | c :: _ => negb (isspace c) && negb (isspace (List.last t c))
  end.

(** The tables a handler builds from, for each answer to the header
    question. *)
Definition after_header (mode : header_mode) (df : DataFrame) : DataFrame :=
  match mode with
  | Yes => drop_first_row df
  | No => df
  end.

(** Some value of a plate map equals the part. *)
Definition present (plate_maps_dict : dict PlateMap) (p : scalar) : Prop :=
  exists item, in_maps plate_maps_dict item /\ py_eq p item = true.

(** * Properties *)

(** ** Text *)

Lemma lstrip_cons_keep (c : char) (s : str) :
  isspace c = false -> lstrip (c :: s) = c :: s.
Proof. intros H. simpl. now rewrite H. Qed.

Lemma lstrip_head (s : str) (c : char) (t : str) :
  lstrip s = c :: t -> isspace c = false.
Proof.
  induction s as [|a s IH]; simpl; [discriminate|].
  destruct (isspace a) eqn:Ha; [exact IH|].
  intros E. injection E as -> _. exact Ha.
Qed.

Lemma lstrip_idem (s : str) : lstrip (lstrip s) = lstrip s.
Proof.
  destruct (lstrip s) as [|c t] eqn:E; [reflexivity|].
  apply lstrip_cons_keep. exact (lstrip_head _ _ _ E).
Qed.

Lemma lstrip_split (s : str) :
  exists ws, s = ws ++ lstrip s /\ forallb isspace ws = true.
Proof.
  induction s as [|a s [ws [E W]]]; [now exists []|].
  simpl. destruct (isspace a) eqn:Ha.
  - exists (a :: ws). simpl. rewrite Ha, W. split; [congruence|reflexivity].
  - now exists [].
Qed.

Lemma lstrip_app_keep (x : str) (c : char) (y : str) :
  isspace c = false -> lstrip (x ++ c :: y) = lstrip x ++ c :: y.
Proof.
  intros Hc. induction x as [|a x IH]; simpl.
  - now rewrite Hc.
  - destruct (isspace a); [exact IH|reflexivity].
Qed.

Lemma rstrip_idem (s : str) : rstrip (rstrip s) = rstrip s.
Proof. unfold rstrip. now rewrite rev_involutive, lstrip_idem. Qed.

Lemma rstrip_cons_keep (c : char) (t : str) :
  isspace c = false -> exists u, rstrip (c :: t) = c :: u.
Proof.
  intros Hc. unfold rstrip. simpl.
  rewrite (lstrip_app_keep (rev t) c [] Hc), rev_app_distr. simpl. eauto.
Qed.

Lemma strip_head (s : str) (c : char) (t : str) :
  strip s = c :: t -> isspace c = false.
Proof.
  unfold strip. destruct (lstrip s) as [|a u] eqn:E.
  - discriminate.
  - pose proof (lstrip_head _ _ _ E) as Ha.
    destruct (rstrip_cons_keep a u Ha) as [w Hw]. rewrite Hw.
    intros H. injection H as -> _. exact Ha.
Qed.

Lemma strip_last (s t : str) (c : char) :
  strip s = t ++ [c] -> isspace c = false.
Proof.
  unfold strip, rstrip. intros H.
  apply (f_equal (@rev char)) in H.
  rewrite rev_involutive, rev_app_distr in H. simpl in H.
  exact (lstrip_head _ _ _ H).
Qed.

Lemma strip_idem (s : str) : strip (strip s) = strip s.
Proof.
  destruct (strip s) as [|c t] eqn:E; [reflexivity|].
  pose proof (strip_head _ _ _ E) as Hc. rewrite <- E.
  unfold strip at 1. rewrite E, (lstrip_cons_keep _ _ Hc), <- E.
  unfold strip. apply rstrip_idem.
Qed.

(** [strip] removes whitespace at both ends, and nothing else. *)
Lemma strip_split (s : str) :
  exists l r, s = l ++ strip s ++ r
              /\ forallb isspace l = true /\ forallb isspace r = true.
Proof.
  destruct (lstrip_split s) as [l [El Wl]].
  destruct (lstrip_split (rev (lstrip s))) as [r [Er Wr]].
  exists l, (rev r). repeat split; [|exact Wl|].
  - rewrite El at 1. f_equal. unfold strip, rstrip.
    rewrite <- rev_app_distr, <- Er. now rewrite rev_involutive.
  - rewrite forallb_forall in *. intros x Hx. apply Wr. now apply in_rev.
Qed.

Lemma re_blank_all_space (s : str) : re_blank s = forallb isspace s.
Proof.
  induction s as [|c s IH]; [reflexivity|].
  change (re_blank (c :: s)) with (at_dollar (c :: s) || (isspace c && re_blank s)).
  rewrite IH. destruct s as [|d s]; simpl.
  - destruct (N.eqb_spec c 10) as [->|]; [reflexivity|].
    now rewrite andb_true_r.
  - reflexivity.
Qed.

Lemma re_blank_strip (s : str) :
  re_blank (strip s) = match strip s with [] => true | _ :: _ => false end.
Proof.
  rewrite re_blank_all_space.
  destruct (strip s) as [|c t] eqn:E; [reflexivity|].
  simpl. now rewrite (strip_head _ _ _ E).
Qed.

(** ** sanitize_df *)

Lemma applymap_applymap (f g : cell -> cell) (df : DataFrame) :
  applymap g (applymap f df) = applymap (fun x => g (f x)) df.
Proof.
  unfold applymap. rewrite List.map_map. apply List.map_ext.
  intros r. simpl. now rewrite List.map_map.
Qed.

Lemma applymap_ext (f g : cell -> cell) (df : DataFrame) :
  (forall x, f x = g x) -> applymap f df = applymap g df.
Proof.
  intros H. unfold applymap. apply List.map_ext. intros r.
  rewrite (H (row0 r)). f_equal. now apply List.map_ext.
Qed.

Lemma applymap_dimensions (f : cell -> cell) (df : DataFrame) :
  dimensions (applymap f df) = dimensions df.
Proof.
  unfold dimensions, applymap. rewrite List.length_map, List.map_map.
  f_equal. apply List.map_ext. intros r. simpl. now rewrite List.length_map.
Qed.

Lemma sanitize_df_cells (df : DataFrame) :
  sanitize_df df = applymap spec_normalize df.
Proof.
  unfold sanitize_df, replace_blank, copy. rewrite applymap_applymap.
  apply applymap_ext. intros [| |[s|z|f|b]]; simpl; try reflexivity.
  rewrite re_blank_strip. now destruct (strip s).
Qed.

Lemma spec_normalize_idem (x : cell) :
  spec_normalize (spec_normalize x) = spec_normalize x.
Proof.
  destruct x as [| |[s|z|f|b]]; simpl; try reflexivity.
  destruct (strip s) as [|c t] eqn:E; [reflexivity|].
  simpl. rewrite <- E, strip_idem. now rewrite E.
Qed.

(** C7. Normalising is idempotent: [sanitize_df] applied to its own output
    gives that output back, for every table. *)
Theorem sanitize_df_idempotent (df : DataFrame) :
  sanitize_df (sanitize_df df) = sanitize_df df.
Proof.
  rewrite !sanitize_df_cells, applymap_applymap.
  apply applymap_ext, spec_normalize_idem.
Qed.

Lemma alloc_spec (h : gmap loc DataFrame) (v : DataFrame) :
  let '(h', l) := alloc h v in
  h' !! l = Some v /\ forall l' w, h !! l' = Some w -> h' !! l' = Some w.
Proof.
  unfold alloc. split.
  - apply lookup_insert_eq.
  - intros l' w Hl'. rewrite lookup_insert_ne; [exact Hl'|].
    intros <-. pose proof (is_fresh (dom h)) as Hf.
    apply not_elem_of_dom in Hf. congruence.
Qed.

Lemma sanitize_df_store_spec (h : gmap loc DataFrame) (df : loc) (v : DataFrame) :
  h !! df = Some v ->
  exists h' out,
    sanitize_df_store h df = Some (h', out)
    /\ h' !! out = Some (sanitize_df v)
    /\ forall l w, h !! l = Some w -> h' !! l = Some w.
Proof.
  intros Hdf. unfold sanitize_df_store. rewrite Hdf.
  pose proof (alloc_spec h (copy v)) as A1.
  destruct (alloc h (copy v)) as [h1 l1]. destruct A1 as [R1 K1]. rewrite R1.
  pose proof (alloc_spec h1 (applymap strip_if_str (copy v))) as A2.
  destruct (alloc h1 _) as [h2 l2]. destruct A2 as [R2 K2]. rewrite R2.
  pose proof (alloc_spec h2 (replace_blank (applymap strip_if_str (copy v)))) as A3.
  destruct (alloc h2 _) as [h3 l3]. destruct A3 as [R3 K3].
  exists h3, l3. repeat split; [exact R3|].
  intros l w Hl. auto.
Qed.

(** C8. For every table [v], [sanitize_df] returns a table of the same
    dimensions whose cells are those of [v] normalised one by one: text is
    stripped and becomes the empty marker when nothing is left, every other
    cell is passed through.  Run on a frame [df] of the object store it
    always returns (no cell type makes it raise), its result is a new frame,
    and every frame that was in the store, [df] included, is left as it
    was. *)
Theorem sanitize_df_contract (h : gmap loc DataFrame) (df : loc) (v : DataFrame) :
  h !! df = Some v ->
  dimensions (sanitize_df v) = dimensions v
  /\ sanitize_df v = applymap spec_normalize v
  /\ exists h' out,
       sanitize_df_store h df = Some (h', out)
       /\ h' !! out = Some (sanitize_df v)
       /\ h' !! df = Some v
       /\ forall l w, h !! l = Some w -> h' !! l = Some w.
Proof.
  intros Hdf. split; [|split].
  - rewrite sanitize_df_cells. apply applymap_dimensions.
  - apply sanitize_df_cells.
  - destruct (sanitize_df_store_spec h df v Hdf) as [h' [out [E [R K]]]].
    exists h', out. auto.
Qed.

Lemma sanitize_df_contract_witness :
  let v := [ mkRow (Val (Str (py " A1 "))) [Val (Str (py "  ")); NaN; Val (Int 7)] ] in
  let h : gmap loc DataFrame := {[ 1%positive := v ]} in
  h !! 1%positive = Some v
  /\ dimensions (sanitize_df v) = dimensions v
  /\ sanitize_df v = [ mkRow (Val (Str (py "A1"))) [NA; NaN; Val (Int 7)] ]
  /\ exists h' out,
       sanitize_df_store h 1%positive = Some (h', out)
       /\ h' !! out = Some (sanitize_df v)
       /\ h' !! 1%positive = Some v.
Proof.
  intros v h.
  assert (Hv : h !! 1%positive = Some v) by reflexivity.
  destruct (sanitize_df_contract h 1%positive v Hv) as [D [C [h' [out [E [R [I K]]]]]]].
  split; [exact Hv|]. split; [exact D|]. split; [reflexivity|].
  exists h', out. auto.
Defined.

(** ** Plate maps and combinations *)

Lemma notna_values_filter (l : list cell) :
  List.map Val (notna_values l) = List.filter notna l.
Proof.
  induction l as [|[| |v] l IH]; simpl;
    [reflexivity | exact IH | exact IH | now rewrite IH].
Qed.

Lemma process_plate_map_df_acc (df : DataFrame) (acc : PlateMap) :
  fold_left
    (fun plate_map row =>
       if notna (row0 row) then plate_map ++ [notna_values (tolist row)]
       else plate_map)
    df acc
  = acc ++ List.map (fun r => notna_values (tolist r))
             (List.filter (fun r => notna (row0 r)) df).
Proof.
  revert acc. induction df as [|r df IH]; intros acc; simpl.
  - now rewrite app_nil_r.
  - rewrite IH. destruct (notna (row0 r)); simpl; [|reflexivity].
    now rewrite <- app_assoc.
Qed.

Lemma process_plate_map_df_eq (df : DataFrame) :
  process_plate_map_df df
  = List.map (fun r => notna_values (tolist r))
      (List.filter (fun r => notna (row0 r)) df).
Proof. unfold process_plate_map_df. now rewrite process_plate_map_df_acc. Qed.

(** C5. For every table, the plate map has one row for each input row whose
    first cell is not the empty marker, in the order of the table, and
    none for the others; each of its rows holds the cells of that input
    row that are not the empty marker, in their order.  So it has as many
    rows as the table has rows with a first cell that is not empty, none of
    its rows is empty, and none of its cells is the empty marker. *)
Theorem process_plate_map_df_rows (df : DataFrame) :
  List.map (List.map Val) (process_plate_map_df df) = spec_plate_map df
  /\ List.length (process_plate_map_df df)
     = List.length (List.filter (fun r => notna (row0 r)) df)
  /\ Forall (fun row => row <> []) (process_plate_map_df df)
  /\ Forall (Forall (fun x => notna x = true)) (spec_plate_map df).
Proof.
  rewrite process_plate_map_df_eq. unfold spec_plate_map.
  split; [|split; [|split]].
  - rewrite List.map_map. apply List.map_ext. intros r.
    apply notna_values_filter.
  - apply List.length_map.
  - apply List.Forall_forall. intros row Hrow.
    apply in_map_iff in Hrow as [r [<- Hr]].
    apply filter_In in Hr as [_ Hr]. unfold tolist.
    destruct (row0 r); simpl in *; discriminate.
  - apply List.Forall_forall. intros row Hrow.
    apply in_map_iff in Hrow as [r [<- _]].
    apply List.Forall_forall. intros x Hx. now apply filter_In in Hx.
Qed.

Lemma generate_combinations_acc (df : DataFrame) (acc : list Combination) :
  fold_left
    (fun combos row =>
       match row0 row with
       | Val v =>
           combos
           ++ [ {| name := getitem0 row v; parts := notna_values (row_rest row) |} ]
       | _ => combos
       end)
    df acc
  = acc ++ List.flat_map
             (fun r =>
                match row0 r with
                | Val v =>
                    [ {| name := getitem0 r v; parts := notna_values (row_rest r) |} ]
                | _ => []
                end)
             df.
Proof.
  revert acc. induction df as [|r df IH]; intros acc; simpl.
  - now rewrite app_nil_r.
  - rewrite IH. destruct (row0 r); simpl; try reflexivity.
    now rewrite <- app_assoc.
Qed.

Lemma generate_combinations_eq (df : DataFrame) :
  generate_combinations df
  = List.flat_map
      (fun r =>
         match row0 r with
         | Val v =>
             [ {| name := getitem0 r v; parts := notna_values (row_rest r) |} ]
         | _ => []
         end)
      df.
Proof. unfold generate_combinations. now rewrite generate_combinations_acc. Qed.

(** C9. Whatever the two tables hold, [generate_plate_maps] returns a
    mapping with the keys "PlateMap1" and "PlateMap2" and no other, the
    first bound to the plate map of the first table and the second to the
    plate map of the second table. *)
Theorem generate_plate_maps_keys (df1 df2 : DataFrame) :
  keys (generate_plate_maps df1 df2) = [py "PlateMap1"; py "PlateMap2"]
  /\ get (generate_plate_maps df1 df2) (py "PlateMap1")
     = Some (process_plate_map_df df1)
  /\ get (generate_plate_maps df1 df2) (py "PlateMap2")
     = Some (process_plate_map_df df2)
  /\ forall k, get (generate_plate_maps df1 df2) k <> None
               <-> k = py "PlateMap1" \/ k = py "PlateMap2".
Proof.
  split; [reflexivity|]. split; [reflexivity|]. split; [reflexivity|].
  intros k. unfold get, generate_plate_maps. simpl.
  destruct (decide (k = py "PlateMap1")) as [->|N1]; [split; [auto|discriminate]|].
  destruct (decide (k = py "PlateMap2")) as [->|N2]; [split; [auto|discriminate]|].
  split; [congruence|]. intros [H|H]; contradiction.
Qed.

(** ** create_protocol *)

Lemma map_result_cons {A B} (f : A -> result B) (x : A) (l : list A) :
  map_result f (x :: l)
  = match f x with
    | Raise e => Raise e
    | Ok y =>
        match map_result f l with
        | Raise e => Raise e
        | Ok ys => Ok (y :: ys)
        end
    end.
Proof. reflexivity. Qed.

(** [json.dumps] raises [TypeError] on an object that holds a numpy scalar
    and returns a text on every other. *)
Lemma json_dumps_outcome (float_repr : pyfloat -> str) (o : pyobj) :
  if has_numpy o then json_dumps float_repr o = Raise TypeError
  else exists s, json_dumps float_repr o = Ok s.
Proof.
  revert o. fix IH 1. intros [v|x|l|d].
  - simpl. eauto.
  - reflexivity.
  - cbn [json_dumps has_numpy].
    assert (L : if existsb has_numpy l
                then map_result (json_dumps float_repr) l = Raise TypeError
                else exists ys, map_result (json_dumps float_repr) l = Ok ys).
    { induction l as [|x l IHl]; [simpl; eauto|].
      rewrite map_result_cons. cbn [existsb].
      specialize (IH x). destruct (has_numpy x).
      - now rewrite IH.
      - destruct IH as [s ->]. cbn [orb].
        destruct (existsb has_numpy l).
        + now rewrite IHl.
        + destruct IHl as [ys ->]. eauto. }
    destruct (existsb has_numpy l).
    + now rewrite L.
    + destruct L as [ys ->]. eauto.
  - cbn [json_dumps has_numpy].
    match goal with
    | |- context [map_result ?f d] =>
        assert (L : if existsb (fun kv => has_numpy (snd kv)) d
                    then map_result f d = Raise TypeError
                    else exists ys, map_result f d = Ok ys)
    end.
    { induction d as [|[k x] d IHd]; [simpl; eauto|].
      rewrite map_result_cons. cbn [existsb fst snd].
      specialize (IH x). destruct (has_numpy x).
      - now rewrite IH.
      - destruct IH as [s ->]. cbn [orb].
        destruct (existsb (fun kv => has_numpy (snd kv)) d).
        + now rewrite IHd.
        + destruct IHd as [ys ->]. eauto. }
    destruct (existsb (fun kv => has_numpy (snd kv)) d).
    + now rewrite L.
    + destruct L as [ys ->]. eauto.
Qed.

(** Plate maps hold the values of [tolist], which are Python objects. *)
Lemma plate_maps_python (plate_maps : dict PlateMap) :
  has_numpy (as_object plate_maps) = false.
Proof.
  destruct plate_maps as [l]. cbn.
  induction l as [|[k m] l IH]; [reflexivity|].
  cbn [List.map existsb snd]. rewrite IH, orb_false_r. clear IH.
  cbn. induction m as [|row m IHm]; [reflexivity|].
  cbn [List.map existsb]. rewrite IHm, orb_false_r. clear IHm.
  cbn. induction row as [|v row IHr]; [reflexivity|].
  cbn [List.map existsb]. now rewrite IHr.
Qed.

(** A list of combinations holds a numpy scalar exactly when some name is
    one: the parts are values of [tolist]. *)
Lemma combinations_numpy (combos : list Combination) :
  has_numpy (as_object combos) = existsb numpy_name combos.
Proof.
  cbn. induction combos as [|c combos IH]; [reflexivity|].
  cbn [List.map existsb]. rewrite IH. f_equal. clear IH.
  destruct c as [n ps]. unfold numpy_name. cbn [name parts].
  cbn. rewrite orb_false_r.
  assert (P : existsb has_numpy (List.map as_object ps) = false).
  { induction ps as [|v ps IHp]; [reflexivity|].
    cbn [List.map existsb]. now rewrite IHp. }
  unfold as_object, list_object in *. unfold as_object in P.
  rewrite P, orb_false_r. now destruct n.
Qed.

Lemma create_protocol_flat (float_repr : pyfloat -> str)
    (decode_utf8 : list Byte.byte -> result str) (dict_obj combos_list : pyobj)
    (template_file : UploadedFile) (dict_name combos_name : str) :
  create_protocol float_repr decode_utf8 dict_obj combos_list template_file
    dict_name combos_name
  = match decode_utf8 (getvalue template_file) with
    | Ok template_body =>
        match json_dumps float_repr dict_obj with
        | Ok dict_json =>
            match json_dumps float_repr combos_list with
            | Ok combos_json =>
                Ok (dict_name ++ py " = " ++ dict_json
                    ++ [10; 10]%N
                    ++ combos_name ++ py " = " ++ combos_json
                    ++ [10; 10]%N
                    ++ template_body)
            | Raise e => Raise e
            end
        | Raise e => Raise e
        end
    | Raise e => Raise e
    end.
Proof.
  unfold create_protocol, mbind, result_bind.
  destruct (decode_utf8 (getvalue template_file)) as [body|e]; [|reflexivity].
  destruct (json_dumps float_repr dict_obj) as [dict_json|e]; [|reflexivity].
  destruct (json_dumps float_repr combos_list) as [combos_json|e];
    [|reflexivity].
  f_equal. rewrite <- !app_assoc. reflexivity.
Qed.

(** C4. [create_protocol] on the plate maps and the combinations of a run.
    The plate maps always have a JSON text.  When the template decodes and
    the combinations have one too, the result is the first name, [" = "],
    the JSON text of the plate maps, an empty line, the second name,
    [" = "], the JSON text of the combinations, an empty line, and then the
    text of the template, unchanged.  The combinations have a JSON text
    unless some name is a numpy scalar, and then [json.dumps] raises
    [TypeError] and nothing is returned.  A table of integers gives such
    names: the name is [row[0]], which is not converted, where the parts go
    through [tolist].  On the maps 10, 20 and B and the one-row
    combinations table 1, 10, 20 nothing is missing, and the Golden Gate
    handler ends with the error message instead of the protocol. *)
Theorem create_protocol_numpy_name (float_repr : pyfloat -> str)
    (decode_utf8 : list Byte.byte -> result str)
    (plate_maps : dict PlateMap) (combos : list Combination)
    (template_file : UploadedFile) (dict_name combos_name : str) :
  (exists maps_json,
     json_dumps float_repr (as_object plate_maps) = Ok maps_json
     /\ create_protocol float_repr decode_utf8 (as_object plate_maps)
          (as_object combos) template_file dict_name combos_name
        = match decode_utf8 (getvalue template_file) with
          | Ok template_body =>
              match json_dumps float_repr (as_object combos) with
              | Ok combos_json =>
                  Ok (dict_name ++ py " = " ++ maps_json
                      ++ [10; 10]%N
                      ++ combos_name ++ py " = " ++ combos_json
                      ++ [10; 10]%N
                      ++ template_body)
              | Raise e => Raise e
              end
          | Raise e => Raise e
          end)
  /\ (if existsb numpy_name combos
      then json_dumps float_repr (as_object combos) = Raise TypeError
      else exists combos_json,
             json_dumps float_repr (as_object combos) = Ok combos_json)
  /\ (let df1 := [ mkRow (Val (Int 10)) [Val (Int 20)] ] in
      let df2 := [ mkRow (Val (Str (py "B"))) [] ] in
      let df3 := [ mkRow (Val (Int 1)) [Val (Int 10); Val (Int 20)] ] in
      generate_combinations (sanitize_df df3)
      = [ {| name := Np (Int64 1); parts := [Int 10; Int 20] |} ]
      /\ find_missing_parts_in_maps (generate_combinations (sanitize_df df3))
           (generate_plate_maps (sanitize_df df1) (sanitize_df df2))
         = Ok []
      /\ golden_gate float_repr decode_utf8 (Some df1) (Some df2) (Some df3)
           (Some template_file) No
         = match decode_utf8 (getvalue template_file) with
           | Ok _ => ErrorMessage TypeError
           | Raise e => ErrorMessage e
           end).
Proof.
  split; [|split].
  - pose proof (json_dumps_outcome float_repr (as_object plate_maps)) as M.
    rewrite plate_maps_python in M. destruct M as [maps_json M].
    exists maps_json. split; [exact M|].
    rewrite create_protocol_flat, M. reflexivity.
  - rewrite <- combinations_numpy. apply json_dumps_outcome.
  - cbv zeta. split; [reflexivity|]. split; [reflexivity|].
    unfold golden_gate, create_protocol, mbind, result_bind.
    destruct (decode_utf8 (getvalue template_file)); vm_compute; reflexivity.
Qed.

(** ** detect_header_row *)

Section HeaderSniffer.

Variable isdecimal : char -> bool.

Lemma skip_digits_split (s : str) :
  exists ds, s = ds ++ skip_digits isdecimal s /\ forallb isdecimal ds = true.
Proof.
  induction s as [|c s [ds [E D]]]; [now exists []|].
  simpl. destruct (isdecimal c) eqn:Hc.
  - exists (c :: ds). simpl. rewrite Hc, D. split; [congruence|reflexivity].
  - now exists [].
Qed.

Lemma skip_digits_head (s : str) (c : char) (t : str) :
  skip_digits isdecimal s = c :: t -> isdecimal c = false.
Proof.
  induction s as [|a s IH]; simpl; [discriminate|].
  destruct (isdecimal a) eqn:Ha; [exact IH|].
  intros E. injection E as -> _. exact Ha.
Qed.

Lemma skip_digits_all (ds : str) :
  forallb isdecimal ds = true -> skip_digits isdecimal ds = [].
Proof.
  induction ds as [|c ds IH]; simpl; [reflexivity|].
  destruct (isdecimal c); [exact IH|discriminate].
Qed.

Lemma skip_digits_app (ds : str) (c : char) (t : str) :
  forallb isdecimal ds = true -> isdecimal c = false ->
  skip_digits isdecimal (ds ++ c :: t) = c :: t.
Proof.
  intros D Hc. induction ds as [|a ds IH]; simpl in *.
  - now rewrite Hc.
  - destruct (isdecimal a); [now apply IH|discriminate].
Qed.

(** The matcher accepts the language of [\d+(?:\.\d+)?] and nothing else. *)
Lemma fullmatch_decimal_spec (s : str) :
  fullmatch_decimal isdecimal s = true <-> decimal_text isdecimal s.
Proof.
  split.
  - destruct s as [|c s]; [discriminate|].
    unfold fullmatch_decimal. intros H.
    apply andb_prop in H as [Hc H].
    destruct (skip_digits_split (c :: s)) as [ds [E D]].
    destruct (skip_digits isdecimal (c :: s)) as [|d [|f r]] eqn:K; try discriminate.
    + exists ds. rewrite app_nil_r in E. subst ds. repeat split; [discriminate|exact D|now left].
    + apply andb_prop in H as [H F]. apply andb_prop in H as [Hd Hf].
      apply N.eqb_eq in Hd. subst d.
      destruct (skip_digits isdecimal (f :: r)) eqn:K2; [|discriminate].
      destruct (skip_digits_split (f :: r)) as [fs [E2 D2]].
      rewrite K2, app_nil_r in E2. subst fs.
      exists ds. repeat split.
      * intros ->. simpl in E. injection E as -> _.
        pose proof (skip_digits_head _ _ _ K). congruence.
      * exact D.
      * right. exists (f :: r). repeat split; [discriminate|exact D2|exact E].
  - intros [ds [Hne [D [->|[fs [Hfe [F ->]]]]]]].
    + destruct ds as [|c ds]; [contradiction|].
      unfold fullmatch_decimal. rewrite (skip_digits_all _ D).
      simpl in D. apply andb_prop in D as [-> _]. reflexivity.
    + destruct ds as [|c ds]; [contradiction|].
      destruct fs as [|f fs]; [contradiction|].
      assert (Hc : isdecimal c = true)
        by (simpl in D; now apply andb_prop in D as [-> _]).
      assert (Hf : isdecimal f = true)
        by (simpl in F; now apply andb_prop in F as [-> _]).
      destruct (isdecimal 46%N) eqn:Hdot.
      * assert (K : skip_digits isdecimal (c :: ds ++ 46%N :: f :: fs) = []).
        { apply skip_digits_all.
          change (c :: ds ++ 46%N :: f :: fs) with ((c :: ds) ++ 46%N :: f :: fs).
          rewrite forallb_app, D. simpl. simpl in F. now rewrite Hdot, F. }
        simpl app. unfold fullmatch_decimal. now rewrite K, Hc.
      * assert (K : skip_digits isdecimal (c :: ds ++ 46%N :: f :: fs)
                    = 46%N :: f :: fs).
        { exact (skip_digits_app (c :: ds) _ _ D Hdot). }
        simpl app. unfold fullmatch_decimal.
        rewrite K, Hc, Hf, (skip_digits_all _ F). reflexivity.
Qed.

Lemma scan_below_spec (others : list cell) :
  scan_below isdecimal others = true
  <-> exists v, In (Val v) others /\ looks_numeric isdecimal v = true.
Proof.
  induction others as [|[| |v] l IH]; simpl.
  - split; [discriminate|]. now intros [v [[] _]].
  - rewrite IH. split; intros [v [H L]]; exists v; intuition discriminate.
  - rewrite IH. split; intros [v [H L]]; exists v; intuition discriminate.
  - destruct (looks_numeric isdecimal v) eqn:Hv.
    + split; [|reflexivity]. intros _. exists v. auto.
    + rewrite IH. split; intros [w [H L]]; exists w; [auto|].
      destruct H as [H|H]; [|auto]. injection H as ->. congruence.
Qed.

Lemma scan_first_spec (cells : list (nat * cell)) (rest : DataFrame) :
  scan_first isdecimal cells rest = true
  <-> exists j s, In (j, Val (Str s)) cells /\ has_letter s = true
                  /\ scan_below isdecimal (column rest j) = true.
Proof.
  induction cells as [|[j x] cells IH]; simpl.
  - split; [discriminate|]. now intros [j [s [[] _]]].
  - assert (Skip :
      (forall s, x = Val (Str s) ->
                 has_letter s && scan_below isdecimal (column rest j) = false) ->
      scan_first isdecimal cells rest = true
      <-> exists j' s, ((j, x) = (j', Val (Str s)) \/ In (j', Val (Str s)) cells)
                       /\ has_letter s = true
                       /\ scan_below isdecimal (column rest j') = true).
    { intros Hx. rewrite IH. split; intros [j' [s [H [L B]]]]; exists j', s.
      - auto.
      - destruct H as [H|H]; [|auto]. injection H as -> ->.
        specialize (Hx s eq_refl). rewrite L, B in Hx. discriminate. }
    destruct x as [| |[s|z|f|b]]; try (apply Skip; intros; discriminate).
    destruct (has_letter s) eqn:L.
    + destruct (scan_below isdecimal (column rest j)) eqn:B.
      * split; [|reflexivity]. intros _. exists j, s. auto.
      * apply Skip. intros s' E. apply andb_false_r.
    + apply Skip. intros s' E. injection E as <-. now rewrite L.
Qed.

End HeaderSniffer.

Lemma enumerate_from_In {A} (l : list A) (a j : nat) (x : A) :
  In (j, x) (combine (seq a (List.length l)) l)
  <-> (a <= j)%nat /\ nth_error l (j - a) = Some x.
Proof.
  revert a. induction l as [|y l IH]; intros a; simpl.
  - split; [contradiction|]. intros [_ H]. now destruct (j - a)%nat.
  - rewrite IH. split.
    + intros [E|[Hle H]].
      * injection E as -> ->. split; [lia|]. now rewrite Nat.sub_diag.
      * split; [lia|]. replace (j - a)%nat with (S (j - S a)) by lia. exact H.
    + intros [Hle H]. destruct (j - a)%nat as [|k] eqn:K.
      * left. injection H as ->. f_equal. lia.
      * right. split; [lia|]. replace (j - S a)%nat with k by lia. exact H.
Qed.

Lemma enumerate_In {A} (l : list A) (j : nat) (x : A) :
  In (j, x) (enumerate l) <-> nth_error l j = Some x.
Proof.
  unfold enumerate. rewrite enumerate_from_In, Nat.sub_0_r.
  split; [now intros [_ H]|]. intros H. split; [lia|exact H].
Qed.

Lemma nth_NaN_Val (l : list cell) (j : nat) (v : scalar) :
  nth j l NaN = Val v <-> nth_error l j = Some (Val v).
Proof.
  revert j. induction l as [|x l IH]; intros [|j]; simpl;
    try (split; discriminate); [|apply IH].
  split; [now intros ->|congruence].
Qed.

Lemma column_In (rest : DataFrame) (j : nat) (v : scalar) :
  In (Val v) (column rest j)
  <-> exists r, In r rest /\ nth_error (tolist r) j = Some (Val v).
Proof.
  unfold column. rewrite in_map_iff.
  split; intros [r [H1 H2]]; exists r.
  - split; [exact H2|]. now apply nth_NaN_Val.
  - split; [|exact H1]. now apply nth_NaN_Val.
Qed.

Lemma has_letter_spec (s : str) :
  has_letter s = true <-> exists c, In c s /\ ascii_letter c = true.
Proof. apply existsb_exists. Qed.

Lemma normalized_text (t : str) :
  spec_normalize (Val (Str t)) = Val (Str t) -> strip t = t.
Proof.
  simpl. destruct (strip t) as [|c u]; [discriminate|]. congruence.
Qed.

Lemma sanitize_df_normalized (df : DataFrame) : normalized_table (sanitize_df df).
Proof.
  rewrite sanitize_df_cells. unfold normalized_table, applymap.
  apply List.Forall_forall. intros r Hr.
  apply in_map_iff in Hr as [r0 [<- _]].
  apply List.Forall_forall. intros x Hx. unfold tolist in Hx. simpl in Hx.
  destruct Hx as [<-|Hx]; [apply spec_normalize_idem|].
  apply in_map_iff in Hx as [x0 [<- _]]. apply spec_normalize_idem.
Qed.

Lemma normalized_table_cell (df : DataFrame) (r : Row) (j : nat) (x : cell) :
  normalized_table df -> In r df -> nth_error (tolist r) j = Some x ->
  spec_normalize x = x.
Proof.
  intros N Hr Hx. unfold normalized_table in N.
  rewrite List.Forall_forall in N. specialize (N r Hr).
  rewrite List.Forall_forall in N. apply N. eapply nth_error_In, Hx.
Qed.

(** C6. On a normalised table, [detect_header_row] returns [false] when
    the table has fewer than two rows, and otherwise returns [true] exactly
    when some column holds, in the first row, text with a letter of
    [A-Za-z] and, in a later row, a cell that is not empty and is a number
    or is text made of digits with at most one decimal point between them
    (no sign, no exponent).  The loop stops at the first such column; the
    answer is the same as for any such column. *)
Theorem detect_header_row_spec (isdecimal : char -> bool) (df : DataFrame) :
  normalized_table df ->
  ((List.length df < 2)%nat -> detect_header_row isdecimal df = false)
  /\ (detect_header_row isdecimal df = true <-> header_like isdecimal df).
Proof.
  intros N. split.
  - intros Hlen. unfold detect_header_row.
    destruct (Nat.ltb_spec (List.length df) 2); [reflexivity|lia].
  - unfold detect_header_row, header_like.
    destruct (Nat.ltb_spec (List.length df) 2) as [Hlen|Hlen].
    + split; [discriminate|].
      intros [first [rest [j [s [-> [_ [_ [r [v [Hr _]]]]]]]]]].
      destruct rest; [contradiction|]. simpl in Hlen. lia.
    + destruct df as [|first rest]; [simpl in Hlen; lia|].
      rewrite scan_first_spec. split.
      * intros [j [s [Hj [L B]]]].
        apply enumerate_In in Hj. apply has_letter_spec in L.
        apply scan_below_spec in B as [v [Hv Lv]].
        apply column_In in Hv as [r [Hr Hv]].
        exists first, rest, j, s. repeat split; try assumption.
        exists r, v. repeat split; try assumption.
        destruct v as [t|z|f|b]; simpl; try exact I.
        simpl in Lv.
        rewrite (normalized_text t) in Lv; [now apply fullmatch_decimal_spec|].
        eapply (normalized_table_cell _ r j); [exact N|now right|exact Hv].
      * intros [first' [rest' [j [s [E [Hj [L [r [v [Hr [Hv Lv]]]]]]]]]]].
        injection E as <- <-.
        exists j, s. split; [now apply enumerate_In|].
        split; [now apply has_letter_spec|].
        apply scan_below_spec. exists v. split; [apply column_In; eauto|].
        destruct v as [t|z|f|b]; simpl; try reflexivity.
        rewrite (normalized_text t); [now apply fullmatch_decimal_spec|].
        eapply (normalized_table_cell _ r j); [exact N|now right|exact Hv].
Qed.

Lemma detect_header_row_spec_witness :
  let df := sanitize_df
              [ mkRow (Val (Str (py "name"))) [Val (Str (py " volume "))];
                mkRow (Val (Str (py "A1"))) [Val (Str (py "2.5"))] ] in
  normalized_table df
  /\ detect_header_row ascii_digit df = true
  /\ header_like ascii_digit df.
Proof.
  intros df.
  assert (N : normalized_table df) by (repeat constructor).
  destruct (detect_header_row_spec ascii_digit df N) as [_ H].
  assert (T : detect_header_row ascii_digit df = true) by reflexivity.
  split; [exact N|]. split; [exact T|]. apply H, T.
Defined.

(** ** Equality and order of Python values *)

Lemma number_eqb_refl (a : number) : number_eqb a a = true.
Proof. destruct a; simpl; try reflexivity. apply Qeq_bool_iff. reflexivity. Qed.

Lemma number_eqb_sym (a b : number) : number_eqb a b = number_eqb b a.
Proof.
  destruct a, b; simpl; try reflexivity.
  apply eq_true_iff_eq. rewrite !Qeq_bool_iff. split; intros H; now symmetry.
Qed.

Lemma number_eqb_trans (a b c : number) :
  number_eqb a b = true -> number_eqb b c = true -> number_eqb a c = true.
Proof.
  destruct a, b, c; simpl; try discriminate; try reflexivity.
  rewrite !Qeq_bool_iff. intros H1 H2. now rewrite H1.
Qed.

Lemma number_ltb_asym (a b : number) :
  number_ltb a b = true -> number_ltb b a = false.
Proof.
  destruct a, b; simpl; try discriminate; try reflexivity.
  rewrite negb_true_iff, negb_false_iff, Qle_bool_iff.
  intros H. destruct (Qlt_le_dec q0 q) as [L|L].
  - apply Qlt_le_weak in L. apply Qle_bool_iff in L. congruence.
  - exact L.
Qed.

Lemma number_leb_trans (a b c : number) :
  number_ltb b a = false -> number_ltb c b = false -> number_ltb c a = false.
Proof.
  destruct a, b, c; simpl; try discriminate; try reflexivity.
  rewrite !negb_false_iff, !Qle_bool_iff. apply Qle_trans.
Qed.

Lemma number_ltb_total (a b : number) :
  number_ltb b a = false -> number_eqb a b = false -> number_ltb a b = true.
Proof.
  destruct a, b; simpl; try discriminate; try reflexivity.
  rewrite negb_false_iff, negb_true_iff, Qle_bool_iff.
  intros L N. destruct (Qle_bool q0 q) eqn:G; [|reflexivity].
  apply Qle_bool_iff in G.
  assert (E : Qeq_bool q q0 = true) by (apply Qeq_bool_iff; now apply Qle_antisym).
  congruence.
Qed.

Lemma str_eqb_eq (s t : str) : str_eqb s t = true <-> s = t.
Proof. unfold str_eqb. apply bool_decide_eq_true. Qed.

Lemma str_ltb_asym (s t : str) : str_ltb s t = true -> str_ltb t s = false.
Proof.
  revert t. induction s as [|a s IH]; intros [|b t]; simpl; try easy.
  destruct (N.ltb_spec a b), (N.ltb_spec b a), (N.eqb_spec a b), (N.eqb_spec b a);
    simpl; try lia; try easy. apply IH.
Qed.

Lemma str_leb_trans (s t u : str) :
  str_ltb t s = false -> str_ltb u t = false -> str_ltb u s = false.
Proof.
  revert t u. induction s as [|a s IH]; intros [|b t] [|c u]; simpl; try easy.
  destruct (N.ltb_spec b a), (N.ltb_spec c b), (N.ltb_spec c a),
    (N.eqb_spec b a), (N.eqb_spec c b), (N.eqb_spec c a);
    simpl; try lia; try easy. apply IH.
Qed.

Lemma str_ltb_total (s t : str) :
  str_ltb t s = false -> s <> t -> str_ltb s t = true.
Proof.
  revert t. induction s as [|a s IH]; intros [|b t]; simpl; try easy.
  destruct (N.ltb_spec b a), (N.ltb_spec a b), (N.eqb_spec b a), (N.eqb_spec a b);
    simpl; try lia; try easy.
  intros L N. apply IH; [exact L|]. congruence.
Qed.

Lemma py_eq_refl (a : scalar) : py_eq a a = true.
Proof.
  destruct a; cbn [py_eq py_lt value_of]; try apply number_eqb_refl. now apply str_eqb_eq.
Qed.

Lemma py_eq_sym (a b : scalar) : py_eq a b = py_eq b a.
Proof.
  destruct a, b; cbn [py_eq py_lt value_of]; try reflexivity; try apply number_eqb_sym.
  apply eq_true_iff_eq. rewrite !str_eqb_eq. split; congruence.
Qed.

Lemma py_eq_trans (a b c : scalar) :
  py_eq a b = true -> py_eq b c = true -> py_eq a c = true.
Proof.
  destruct a, b, c; cbn [py_eq py_lt value_of]; try discriminate; try apply number_eqb_trans.
  rewrite !str_eqb_eq. congruence.
Qed.

Lemma py_eq_is_text (a b : scalar) : py_eq a b = true -> is_text a = is_text b.
Proof. destruct a, b; cbn [py_eq py_lt value_of]; try discriminate; reflexivity. Qed.

(** [<] raises exactly between text and a number, and then [TypeError]. *)
Lemma py_lt_same_kind (a b : scalar) :
  is_text a = is_text b -> exists r, py_lt a b = Ok r.
Proof. destruct a, b; simpl; intros H; try discriminate; eauto. Qed.

Lemma py_lt_mixed (a b : scalar) :
  is_text a <> is_text b -> py_lt a b = Raise TypeError.
Proof. destruct a, b; simpl; intros H; try reflexivity; contradiction. Qed.

Lemma Ok_inj {A} (a b : A) : Ok a = Ok b -> a = b.
Proof. congruence. Qed.

Lemma py_lt_asym (a b : scalar) : lt a b -> py_lt b a = Ok false.
Proof.
  unfold lt. destruct a, b; cbn [py_lt value_of]; try discriminate;
    intros H%Ok_inj; f_equal;
    solve [now apply str_ltb_asym | now apply number_ltb_asym].
Qed.

Lemma py_le_trans (a b c : scalar) :
  py_lt b a = Ok false -> py_lt c b = Ok false -> py_lt c a = Ok false.
Proof.
  destruct a, b, c; cbn [py_lt value_of]; try discriminate;
    intros H1%Ok_inj H2%Ok_inj; f_equal;
    solve [ eapply str_leb_trans; eassumption
          | eapply number_leb_trans; eassumption ].
Qed.

Lemma py_lt_total (a b : scalar) :
  py_lt b a = Ok false -> py_eq a b = false -> lt a b.
Proof.
  unfold lt. destruct a, b; cbn [py_lt py_eq value_of]; try discriminate;
    intros H1%Ok_inj H2; f_equal;
    try solve [now apply number_ltb_total].
  apply str_ltb_total; [exact H1|]. intros ->.
  assert (str_eqb s0 s0 = true) by now apply str_eqb_eq. congruence.
Qed.

(** ** sorted *)

Lemma uniform_spec (l : list scalar) :
  uniform l = true <-> forall a b, In a l -> In b l -> is_text a = is_text b.
Proof.
  unfold uniform. rewrite orb_true_iff, !forallb_forall. split.
  - intros [H|H] a b Ha Hb.
    + now rewrite (H a Ha), (H b Hb).
    + apply H in Ha, Hb. destruct (is_text a), (is_text b); easy.
  - intros H. destruct l as [|x l]; [left; intros ? []|].
    destruct (is_text x) eqn:Hx; [left|right]; intros y Hy;
      rewrite (H y x Hy (or_introl eq_refl)), Hx; reflexivity.
Qed.

Lemma uniform_mixed (l : list scalar) :
  uniform l = false ->
  exists a b, In a l /\ In b l /\ is_text a = true /\ is_text b = false.
Proof.
  unfold uniform. rewrite orb_false_iff. intros [H1 H2].
  assert (E1 : existsb (fun v => negb (is_text v)) l = true).
  { rewrite <- negb_false_iff, <- H1. clear.
    induction l as [|x l IH]; simpl; [reflexivity|].
    rewrite negb_orb, negb_involutive. now f_equal. }
  assert (E2 : existsb is_text l = true).
  { rewrite <- negb_false_iff, <- H2. clear.
    induction l as [|x l IH]; simpl; [reflexivity|].
    rewrite negb_orb. now f_equal. }
  apply existsb_exists in E1 as [b [Hb Tb]].
  apply existsb_exists in E2 as [a [Ha Ta]].
  exists a, b. rewrite negb_true_iff in Tb. auto.
Qed.

Lemma insert_sorted_perm (x : scalar) (l : list scalar) :
  (forall y, In y l -> is_text y = is_text x) ->
  exists l', insert_sorted x l = Ok l' /\ Permutation (x :: l) l'.
Proof.
  induction l as [|y l IH]; intros H; simpl.
  - now exists [x].
  - destruct (py_lt_same_kind y x (H y (or_introl eq_refl))) as [[|] E];
      rewrite E; simpl.
    + destruct IH as [l' [E' P]]; [intros z Hz; apply H; now right|].
      rewrite E'. simpl. exists (y :: l'). split; [reflexivity|].
      rewrite perm_swap. now constructor.
    + now exists (x :: y :: l).
Qed.

Lemma sorted_perm (l : list scalar) :
  uniform l = true -> exists l', sorted l = Ok l' /\ Permutation l l'.
Proof.
  rewrite uniform_spec. induction l as [|x l IH]; intros H; simpl.
  - now exists [].
  - destruct IH as [l' [E P]]; [intros a b Ha Hb; apply H; now right|].
    rewrite E. simpl.
    destruct (insert_sorted_perm x l') as [l'' [E' P']].
    + intros y Hy. apply H; [right|now left].
      eapply Permutation_in; [symmetry; exact P|exact Hy].
    + exists l''. split; [exact E'|]. rewrite <- P'. now constructor.
Qed.

Lemma insert_sorted_mixed (x y : scalar) (l : list scalar) :
  is_text y <> is_text x -> insert_sorted x (y :: l) = Raise TypeError.
Proof. intros H. simpl. now rewrite (py_lt_mixed y x H). Qed.

Lemma sorted_mixed (l : list scalar) :
  uniform l = false -> sorted l = Raise TypeError.
Proof.
  induction l as [|x l IH]; intros H; [discriminate|].
  simpl. destruct (uniform l) eqn:U.
  - destruct (sorted_perm l U) as [l' [E P]]. rewrite E. simpl.
    destruct (uniform_mixed _ H) as [a [b [Ha [Hb [Ta Tb]]]]].
    rewrite uniform_spec in U.
    assert (K : exists y, In y l /\ is_text y <> is_text x).
    { destruct Ha as [<-|Ha], Hb as [<-|Hb].
      - congruence.
      - exists b. split; [exact Hb|congruence].
      - exists a. split; [exact Ha|congruence].
      - specialize (U a b Ha Hb). congruence. }
    destruct K as [y [Hy Ny]].
    destruct l' as [|z l']; [apply (Permutation_in _ P) in Hy; destruct Hy|].
    apply insert_sorted_mixed. intros Ez. apply Ny. rewrite <- Ez.
    apply U; [exact Hy|]. eapply Permutation_in; [symmetry; exact P|now left].
  - now rewrite (IH eq_refl).
Qed.

Lemma sorted_raises (l : list scalar) (e : exn) :
  sorted l = Raise e -> e = TypeError /\ uniform l = false.
Proof.
  destruct (uniform l) eqn:U.
  - destruct (sorted_perm l U) as [l' [E _]]. congruence.
  - rewrite (sorted_mixed l U). intros H. injection H as <-. auto.
Qed.

Lemma insert_sorted_strict (x : scalar) (l l' : list scalar) :
  StronglySorted lt l -> (forall y, In y l -> py_eq x y = false) ->
  insert_sorted x l = Ok l' -> StronglySorted lt l'.
Proof.
  revert l'. induction l as [|y l IH]; intros l' S D; simpl.
  - intros H%Ok_inj. subst l'. repeat constructor.
  - apply StronglySorted_inv in S as [S F].
    destruct (py_lt y x) as [[|]|e] eqn:E; simpl; try discriminate.
    + destruct (insert_sorted x l) as [l''|e] eqn:E'; simpl; try discriminate.
      intros H%Ok_inj. subst l'. constructor.
      * apply IH; [exact S|intros z Hz; apply D; now right|reflexivity].
      * destruct (insert_sorted_perm x l) as [l3 [E3 P]].
        { intros z Hz. rewrite List.Forall_forall in F.
          specialize (F z Hz). unfold lt in F.
          destruct y, z, x; simpl in *; congruence. }
        assert (l3 = l'') by congruence. subst l3.
        eapply Permutation_Forall; [exact P|]. constructor; assumption.
    + intros H%Ok_inj. subst l'.
      assert (Lxy : lt x y) by (apply py_lt_total; [exact E|apply D; now left]).
      constructor; [now constructor|]. constructor; [exact Lxy|].
      rewrite List.Forall_forall in *. intros z Hz.
      apply py_lt_total; [|apply D; now right].
      apply (py_le_trans x y z); [exact E|]. apply py_lt_asym, F, Hz.
Qed.

Lemma sorted_strict (l l' : list scalar) :
  distinct l -> sorted l = Ok l' -> StronglySorted lt l'.
Proof.
  revert l'. induction l as [|x l IH]; intros l' D; simpl.
  - intros H%Ok_inj. subst l'. constructor.
  - destruct (sorted l) as [s|e] eqn:E; simpl; [|discriminate].
    inversion D as [|? ? F D']; subst. intros H.
    assert (U : uniform l = true).
    { destruct (uniform l) eqn:U; [reflexivity|].
      rewrite (sorted_mixed l U) in E. discriminate. }
    destruct (sorted_perm l U) as [s' [E' P]].
    assert (s' = s) by congruence. subst s'.
    eapply insert_sorted_strict; [now apply IH| |exact H].
    intros y Hy. rewrite List.Forall_forall in F. apply F.
    eapply Permutation_in; [symmetry; exact P|exact Hy].
Qed.

(** A set is iterated in the order of its hash table, not in the order
    its elements were added.  That order does not show in [sorted]: a
    strictly increasing arrangement of given values is unique, so the model,
    which iterates in insertion order, returns what any other order does. *)
Lemma strictly_sorted_unique (l1 l2 : list scalar) :
  Permutation l1 l2 -> StronglySorted lt l1 -> StronglySorted lt l2 -> l1 = l2.
Proof.
  revert l2. induction l1 as [|a l1 IH]; intros l2 P S1 S2.
  - now apply Permutation_nil in P.
  - destruct l2 as [|b l2]; [now apply Permutation_sym, Permutation_nil in P|].
    apply StronglySorted_inv in S1 as [S1 F1].
    apply StronglySorted_inv in S2 as [S2 F2].
    rewrite List.Forall_forall in F1, F2.
    assert (a = b) as <-.
    { assert (Ha : In a (b :: l2)) by (eapply Permutation_in; [exact P|now left]).
      assert (Hb : In b (a :: l1))
        by (eapply Permutation_in; [symmetry; exact P|now left]).
      destruct Ha as [->|Ha]; [reflexivity|].
      destruct Hb as [->|Hb]; [reflexivity|].
      pose proof (py_lt_asym _ _ (F1 b Hb)) as N. pose proof (F2 a Ha) as L.
      unfold lt in L. congruence. }
    f_equal. apply IH; [eapply Permutation_cons_inv; exact P|exact S1|exact S2].
Qed.

Lemma distinct_perm (l l' : list scalar) :
  Permutation l l' -> distinct l -> distinct l'.
Proof.
  unfold distinct. induction 1 as [|x l l' P IH|x y l|l l' l'' P1 IH1 P2 IH2];
    intros D.
  - exact D.
  - inversion D as [|? ? F D']; subst. constructor; [|now apply IH].
    eapply Permutation_Forall; eassumption.
  - inversion D as [|? ? F D']; subst. inversion D' as [|? ? F' D'']; subst.
    inversion F as [|? ? E F'']; subst.
    constructor; [|now constructor].
    constructor; [now rewrite py_eq_sym|exact F'].
  - auto.
Qed.

Lemma uniform_perm (l l' : list scalar) :
  Permutation l l' -> uniform l = uniform l'.
Proof.
  intros P. apply eq_true_iff_eq. rewrite !uniform_spec.
  split; intros H a b Ha Hb; apply H;
    eapply Permutation_in; try eassumption; now symmetry.
Qed.

Lemma sorted_any_order (l l' : list scalar) :
  Permutation l l' -> distinct l -> sorted l = sorted l'.
Proof.
  intros P D. pose proof (uniform_perm l l' P) as U.
  destruct (uniform l) eqn:Ul.
  - destruct (sorted_perm l Ul) as [s [E Ps]].
    destruct (sorted_perm l' (eq_sym U)) as [s' [E' Ps']].
    rewrite E, E'. f_equal. apply strictly_sorted_unique.
    + now rewrite <- Ps, <- Ps'.
    + now apply (sorted_strict l).
    + apply (sorted_strict l'); [now apply (distinct_perm l)|exact E'].
  - now rewrite (sorted_mixed l Ul), (sorted_mixed l' (eq_sym U)).
Qed.

(** ** Sets *)

Lemma contains_snoc (s : pyset) (x y : scalar) :
  contains (s ++ [x]) y = contains s y || py_eq y x.
Proof. unfold contains. rewrite existsb_app. simpl. now rewrite orb_false_r. Qed.

Lemma contains_spec (s : pyset) (x : scalar) :
  contains s x = true <-> exists z, In z s /\ py_eq x z = true.
Proof. apply existsb_exists. Qed.

Lemma contains_add (s : pyset) (x y : scalar) :
  contains (add s x) y = contains s y || py_eq y x.
Proof.
  unfold add. destruct (contains s x) eqn:C; [|apply contains_snoc].
  destruct (py_eq y x) eqn:E; [|now rewrite orb_false_r].
  rewrite orb_true_r. apply contains_spec.
  apply contains_spec in C as [z [Hz Ez]]. exists z.
  split; [exact Hz|]. now apply (py_eq_trans y x z).
Qed.

Lemma add_In (s : pyset) (x z : scalar) :
  In z (add s x) -> In z s \/ (z = x /\ contains s x = false).
Proof.
  unfold add. destruct (contains s x); [now left|].
  intros H. apply in_app_or in H as [H|[<-|[]]]; auto.
Qed.

Lemma distinct_snoc (s : pyset) (x : scalar) :
  distinct s -> (forall z, In z s -> py_eq z x = false) -> distinct (s ++ [x]).
Proof.
  unfold distinct. induction 1 as [|a s F D IH]; intros H; simpl.
  - repeat constructor.
  - constructor.
    + apply Forall_app. split; [exact F|]. repeat constructor. apply H. now left.
    + apply IH. intros z Hz. apply H. now right.
Qed.

Lemma distinct_add (s : pyset) (x : scalar) : distinct s -> distinct (add s x).
Proof.
  intros D. unfold add. destruct (contains s x) eqn:C; [exact D|].
  apply distinct_snoc; [exact D|]. intros z Hz.
  destruct (py_eq z x) eqn:E; [|reflexivity].
  assert (contains s x = true); [|congruence].
  apply contains_spec. exists z. split; [exact Hz|]. now rewrite py_eq_sym.
Qed.

(** ** find_missing_parts_in_maps *)

Lemma available_row_contains (row : list scalar) (acc : pyset) (x : scalar) :
  contains
    (fold_left
       (fun available item =>
          if notna (Val item) then add available item else available)
       row acc) x
  = contains acc x || existsb (py_eq x) row.
Proof.
  revert acc. induction row as [|item row IH]; intros acc; simpl.
  - now rewrite orb_false_r.
  - rewrite IH, contains_add. now rewrite orb_assoc.
Qed.

Lemma available_plate_contains (plate : PlateMap) (acc : pyset) (x : scalar) :
  contains
    (fold_left
       (fun available row =>
          fold_left
            (fun available item =>
               if notna (Val item) then add available item else available)
            row available)
       plate acc) x
  = contains acc x || existsb (fun row => existsb (py_eq x) row) plate.
Proof.
  revert acc. induction plate as [|row plate IH]; intros acc; simpl.
  - now rewrite orb_false_r.
  - rewrite IH, available_row_contains. now rewrite orb_assoc.
Qed.

Lemma available_parts_contains (plate_maps_dict : dict PlateMap) (x : scalar) :
  contains (available_parts plate_maps_dict) x
  = existsb (fun plate => existsb (fun row => existsb (py_eq x) row) plate)
      (values plate_maps_dict).
Proof.
  unfold available_parts.
  assert (G : forall plates acc,
    contains
      (fold_left
         (fun available plate =>
            fold_left
              (fun available row =>
                 fold_left
                   (fun available item =>
                      if notna (Val item) then add available item else available)
                   row available)
              plate available)
         plates acc) x
    = contains acc x
      || existsb (fun plate => existsb (fun row => existsb (py_eq x) row) plate)
           plates).
  { induction plates as [|plate plates IH]; intros acc; simpl.
    - now rewrite orb_false_r.
    - rewrite IH, available_plate_contains. now rewrite orb_assoc. }
  now rewrite G.
Qed.

(** A part is in the set of available parts exactly when it equals a value
    of some plate map. *)
Lemma available_parts_spec (plate_maps_dict : dict PlateMap) (p : scalar) :
  contains (available_parts plate_maps_dict) p = false <-> absent plate_maps_dict p.
Proof.
  rewrite available_parts_contains. unfold absent, in_maps. split.
  - intros H item [plate [row [Hp [Hr Hi]]]].
    destruct (py_eq p item) eqn:E; [|reflexivity].
    rewrite <- H. symmetry. apply existsb_exists. exists plate. split; [exact Hp|].
    apply existsb_exists. exists row. split; [exact Hr|].
    apply existsb_exists. now exists item.
  - intros H. apply not_true_is_false. intros E.
    apply existsb_exists in E as [plate [Hp E]].
    apply existsb_exists in E as [row [Hr E]].
    apply existsb_exists in E as [item [Hi E]].
    rewrite (H item) in E; [discriminate|]. now exists plate, row.
Qed.

Section Missing.

Variable available : pyset.

Lemma missing_combo_inv (ps : list scalar) (acc : pyset) :
  distinct acc ->
  let out :=
    fold_left
      (fun missing part =>
         if negb (contains available part) then add missing part else missing)
      ps acc in
  distinct out
  /\ (forall z, In z out ->
        In z acc \/ (In z ps /\ contains available z = false))
  /\ (forall x, contains out x
                = contains acc x
                  || existsb (fun p => negb (contains available p) && py_eq x p) ps).
Proof.
  revert acc. induction ps as [|p ps IH]; intros acc D; simpl.
  - repeat split; [exact D|auto|]. intros x. now rewrite orb_false_r.
  - destruct (contains available p) eqn:A; simpl.
    + destruct (IH _ D) as [D2 [I2 C2]]. repeat split; [exact D2| |exact C2].
      intros z Hz. apply I2 in Hz as [Hz|[Hz Az]]; auto.
    + destruct (IH _ (distinct_add acc p D)) as [D2 [I2 C2]].
      repeat split; [exact D2| |].
      * intros z Hz. apply I2 in Hz as [Hz|[Hz Az]]; [|now auto].
        apply add_In in Hz as [Hz|[-> _]]; auto.
      * intros x. rewrite C2, contains_add. now rewrite orb_assoc.
Qed.

Lemma missing_parts_inv (combos_list : list Combination) (acc : pyset) :
  distinct acc ->
  let out :=
    fold_left
      (fun missing combo =>
         fold_left
           (fun missing part =>
              if negb (contains available part) then add missing part
              else missing)
           (parts combo) missing)
      combos_list acc in
  distinct out
  /\ (forall z, In z out ->
        In z acc \/ (referenced combos_list z /\ contains available z = false))
  /\ (forall x, contains out x
                = contains acc x
                  || existsb
                       (fun c =>
                          existsb
                            (fun p => negb (contains available p) && py_eq x p)
                            (parts c))
                       combos_list).
Proof.
  revert acc. induction combos_list as [|c cs IH]; intros acc D; simpl.
  - repeat split; [exact D|auto|]. intros x. now rewrite orb_false_r.
  - destruct (missing_combo_inv (parts c) acc D) as [D1 [I1 C1]].
    destruct (IH _ D1) as [D2 [I2 C2]]. repeat split; [exact D2| |].
    + intros z Hz. apply I2 in Hz as [Hz|[[c' [Hc Hz]] A]].
      * apply I1 in Hz as [Hz|[Hz A]]; [now left|].
        right. split; [|exact A]. exists c. split; [now left|exact Hz].
      * right. split; [|exact A]. exists c'. split; [now right|exact Hz].
    + intros x. rewrite C2, C1. now rewrite orb_assoc.
Qed.

End Missing.

(** What the function returns, and when it raises: the result is strictly
    increasing (sorted, no value twice), holds only parts that are referred
    to and equal no value of a plate map, and holds every such part up to
    [==]; the call raises, with [TypeError], exactly when both a text part
    and a number part are missing. *)
Lemma find_missing_parts_in_maps_spec (combos_list : list Combination)
    (plate_maps_dict : dict PlateMap) :
  match find_missing_parts_in_maps combos_list plate_maps_dict with
  | Ok missing =>
      StronglySorted lt missing
      /\ (forall x, In x missing ->
            referenced combos_list x /\ absent plate_maps_dict x)
      /\ (forall p, referenced combos_list p -> absent plate_maps_dict p ->
            exists x, In x missing /\ py_eq x p = true)
  | Raise e =>
      e = TypeError
      /\ exists a b,
           referenced combos_list a /\ absent plate_maps_dict a /\ is_text a = true
           /\ referenced combos_list b /\ absent plate_maps_dict b
           /\ is_text b = false
  end.
Proof.
  unfold find_missing_parts_in_maps.
  set (available := available_parts plate_maps_dict).
  pose proof (missing_parts_inv available combos_list [] (FOP_nil _)) as [D [I C]].
  fold (missing_parts combos_list available) in D, I, C.
  set (missing := missing_parts combos_list available) in *.
  assert (I' : forall z, In z missing ->
                 referenced combos_list z /\ absent plate_maps_dict z).
  { intros z Hz. apply I in Hz as [[]|[R A]]. split; [exact R|].
    now apply available_parts_spec. }
  destruct (sorted missing) as [l|e] eqn:E.
  - assert (U : uniform missing = true).
    { destruct (uniform missing) eqn:U; [reflexivity|].
      rewrite (sorted_mixed _ U) in E. discriminate. }
    destruct (sorted_perm _ U) as [l' [E' P]].
    assert (l' = l) by congruence. subst l'.
    split; [now apply (sorted_strict missing)|]. split.
    + intros x Hx. apply I'. eapply Permutation_in; [symmetry; exact P|exact Hx].
    + intros p [c [Hc Hp]] A.
      assert (K : contains missing p = true).
      { rewrite C. simpl. apply existsb_exists. exists c. split; [exact Hc|].
        apply existsb_exists. exists p. split; [exact Hp|].
        apply available_parts_spec in A. fold available in A.
        now rewrite A, py_eq_refl. }
      apply contains_spec in K as [z [Hz Ez]]. exists z.
      split; [eapply Permutation_in; eassumption|now rewrite py_eq_sym].
  - apply sorted_raises in E as [-> U]. split; [reflexivity|].
    destruct (uniform_mixed _ U) as [a [b [Ha [Hb [Ta Tb]]]]].
    exists a, b. destruct (I' a Ha), (I' b Hb). auto 10.
Qed.

(** When every part is text, the result is exactly the missing parts. *)
Lemma find_missing_parts_in_maps_text (combos_list : list Combination)
    (plate_maps_dict : dict PlateMap) :
  (forall p, referenced combos_list p -> is_text p = true) ->
  exists missing,
    find_missing_parts_in_maps combos_list plate_maps_dict = Ok missing
    /\ StronglySorted lt missing
    /\ forall p, In p missing
                 <-> referenced combos_list p /\ absent plate_maps_dict p.
Proof.
  intros T.
  pose proof (find_missing_parts_in_maps_spec combos_list plate_maps_dict) as S.
  destruct (find_missing_parts_in_maps combos_list plate_maps_dict) as [l|e].
  - destruct S as [S [I C]]. exists l. repeat split; try assumption.
    + now apply I.
    + now apply I.
    + intros [R A]. destruct (C p R A) as [x [Hx E]].
      pose proof (T p R) as Tp. pose proof (py_eq_is_text _ _ E) as Tx.
      destruct x, p; try discriminate. simpl in E.
      apply str_eqb_eq in E. now subst.
  - destruct S as [_ [a [b [_ [_ [_ [Rb [_ Tb]]]]]]]].
    rewrite (T b Rb) in Tb. discriminate.
Qed.

(** C1. A combination list whose parts are the text "A" and the integer 1,
    neither of them in a plate map: both are to be reported, but
    [sorted(missing)] compares text with a number and the call raises
    [TypeError] instead of returning; in the Golden Gate handler the user
    is shown that error and not the missing parts. *)
Theorem find_missing_parts_in_maps_mixed_parts :
  let combos_list :=
    [ {| name := Str (py "c1"); parts := [Str (py "A"); Int 1] |} ] in
  let plate_maps_dict :=
    Dict [ (py "PlateMap1", [[Str (py "B")]]); (py "PlateMap2", [[Str (py "C")]]) ] in
  referenced combos_list (Str (py "A")) /\ absent plate_maps_dict (Str (py "A"))
  /\ referenced combos_list (Int 1) /\ absent plate_maps_dict (Int 1)
  /\ find_missing_parts_in_maps combos_list plate_maps_dict = Raise TypeError
  /\ forall float_repr decode_utf8 file_tpl,
       golden_gate float_repr decode_utf8
         (Some [mkRow (Val (Str (py "B"))) []])
         (Some [mkRow (Val (Str (py "C"))) []])
         (Some [mkRow (Val (Str (py "c1"))) [Val (Str (py "A")); Val (Int 1)]])
         (Some file_tpl) No
       = ErrorMessage TypeError.
Proof.
  intros combos_list plate_maps_dict.
  assert (A : forall p,
             contains (available_parts plate_maps_dict) p = false ->
             absent plate_maps_dict p)
    by (intros p; apply available_parts_spec).
  split; [exists {| name := Str (py "c1"); parts := [Str (py "A"); Int 1] |};
          simpl; auto|].
  split; [now apply A|].
  split; [exists {| name := Str (py "c1"); parts := [Str (py "A"); Int 1] |};
          simpl; auto|].
  split; [now apply A|].
  split; reflexivity.
Qed.

(** C10. The validator compares a part with the values of the plate maps
    by value, also between an integer and a float: the part 1 is found when
    a plate map holds 1.0, and the part 1.0 when it holds 1.  Whenever the
    call returns, a part with an equal value in some plate map is not in
    the result, under any representation, and every reported value is a
    part that equals no value of any plate map; the call returns unless a
    text part and a number part are both missing. *)
Theorem find_missing_parts_in_maps_numeric_equality
    (combos_list : list Combination) (plate_maps_dict : dict PlateMap) :
  py_eq (Int 1) (Float (FFinite false 4503599627370496 (-52))) = true
  /\ find_missing_parts_in_maps
       [ {| name := Str (py "c1"); parts := [Int 1] |} ]
       (Dict [ (py "PlateMap1", [[Float (FFinite false 4503599627370496 (-52))]]);
               (py "PlateMap2", []) ])
     = Ok []
  /\ find_missing_parts_in_maps
       [ {| name := Str (py "c1");
            parts := [Float (FFinite false 4503599627370496 (-52))] |} ]
       (Dict [ (py "PlateMap1", [[Int 1]]); (py "PlateMap2", []) ])
     = Ok []
  /\ match find_missing_parts_in_maps combos_list plate_maps_dict with
     | Ok missing =>
         (forall p item x,
            referenced combos_list p -> in_maps plate_maps_dict item ->
            py_eq p item = true -> In x missing -> py_eq x p = false)
         /\ (forall x, In x missing ->
               referenced combos_list x /\ absent plate_maps_dict x)
     | Raise e =>
         exists a b,
           referenced combos_list a /\ absent plate_maps_dict a /\ is_text a = true
           /\ referenced combos_list b /\ absent plate_maps_dict b
           /\ is_text b = false
     end.
Proof.
  split; [reflexivity|]. split; [reflexivity|]. split; [reflexivity|].
  pose proof (find_missing_parts_in_maps_spec combos_list plate_maps_dict) as S.
  destruct (find_missing_parts_in_maps combos_list plate_maps_dict) as [l|e].
  - destruct S as [_ [I _]]. split; [|exact I].
    intros p item x _ Hitem E Hx.
    destruct (py_eq x p) eqn:Exp; [|reflexivity].
    destruct (I x Hx) as [_ A]. rewrite <- (A item Hitem).
    symmetry. now apply (py_eq_trans x p item).
  - now destruct S as [_ S].
Qed.

(** ** The handlers of [main] *)

Lemma sanitize_df_drop_first_row (df : DataFrame) :
  sanitize_df (drop_first_row df) = drop_first_row (sanitize_df df).
Proof.
  rewrite !sanitize_df_cells. unfold drop_first_row, applymap.
  symmetry. apply List.skipn_map.
Qed.

(** The Golden Gate handler offers a protocol for at most 96 combinations. *)
Lemma golden_gate_capacity (float_repr : pyfloat -> str)
    (decode_utf8 : list Byte.byte -> result str)
    (file_fix file_cust file_comb : option DataFrame)
    (file_tpl : option UploadedFile) (mode : header_mode)
    (preview : list Combination) (file_name data : str) :
  golden_gate float_repr decode_utf8 file_fix file_cust file_comb file_tpl mode
  = ProtocolReady preview file_name data ->
  (List.length preview <= 96)%nat.
Proof.
  unfold golden_gate.
  destruct file_fix, file_cust, file_comb, file_tpl; try discriminate.
  destruct mode; cbv zeta beta iota;
    (match goal with
     | |- context [find_missing_parts_in_maps ?c ?m] =>
         destruct (find_missing_parts_in_maps c m) as [[|]|]; try discriminate
     end);
    (match goal with
     | |- context [(96 <? ?n)%nat] =>
         destruct (Nat.ltb_spec 96 n); try discriminate
     end);
    (match goal with
     | |- context [create_protocol ?a ?b ?c ?d ?e ?f ?g] =>
         destruct (create_protocol a b c d e f g); try discriminate
     end);
    intros Out; injection Out as <- _ _; assumption.
Qed.

(** The Colony PCR handler never answers that there are too many
    combinations. *)
Lemma colony_pcr_never_max (float_repr : pyfloat -> str)
    (decode_utf8 : list Byte.byte -> result str)
    (file_colony file_deck file_recipe : option DataFrame)
    (file_pcr_tpl : option UploadedFile) (mode : header_mode)
    (preview : list Combination) :
  colony_pcr float_repr decode_utf8 file_colony file_deck file_recipe
    file_pcr_tpl mode
  <> MaxCombinations preview.
Proof.
  unfold colony_pcr.
  destruct file_colony, file_deck, file_recipe, file_pcr_tpl; try discriminate.
  cbv zeta.
  match goal with
  | |- context [find_missing_parts_in_maps ?c ?m] =>
      destruct (find_missing_parts_in_maps c m) as [[|]|]; try discriminate
  end.
  match goal with
  | |- context [create_protocol ?a ?b ?c ?d ?e ?f ?g] =>
      destruct (create_protocol a b c d e f g); discriminate
  end.
Qed.

(** C2. A Colony PCR run with 97 combinations whose parts are all in the
    maps: validation passes and the handler builds and offers the protocol;
    it has no check of the number of combinations.  The Golden Gate handler
    on the same uploads answers that at most 96 combinations are allowed. *)
Theorem colony_pcr_97_combinations (float_repr : pyfloat -> str)
    (decode_utf8 : list Byte.byte -> result str) (file_tpl : UploadedFile) :
  let colony := [ mkRow (Val (Str (py "A1"))) [] ] in
  let deck := [ mkRow (Val (Str (py "mix"))) [] ] in
  let recipe :=
    List.map
      (fun i => mkRow (Val (Str (py "combo" ++ int_repr (Z.of_nat i))))
                  [Val (Str (py "A1")); Val (Str (py "mix"))])
      (seq 1 97) in
  let combos := generate_combinations recipe in
  let maps :=
    Dict [ (py "colony_template_map", [[Str (py "A1")]]);
           (py "pcr_deck_map", [[Str (py "mix")]]) ] in
  List.length combos = 97%nat
  /\ find_missing_parts_in_maps combos maps = Ok []
  /\ (exists maps_json combos_json,
        json_dumps float_repr (as_object maps) = Ok maps_json
        /\ json_dumps float_repr (as_object combos) = Ok combos_json
        /\ colony_pcr float_repr decode_utf8 (Some colony) (Some deck)
             (Some recipe) (Some file_tpl) No
           = match decode_utf8 (getvalue file_tpl) with
             | Ok template_body =>
                 ProtocolReady combos (py "colony_pcr_protocol.py")
                   (py "pcr_deck_colony_template_maps_dict" ++ py " = "
                    ++ maps_json ++ [10; 10]%N
                    ++ py "pcr_recipe_to_make" ++ py " = "
                    ++ combos_json ++ [10; 10]%N
                    ++ template_body)
             | Raise e => ErrorMessage e
             end)
  /\ golden_gate float_repr decode_utf8 (Some colony) (Some deck) (Some recipe)
       (Some file_tpl) No
     = MaxCombinations combos.
Proof.
  intros colony deck recipe combos maps.
  assert (S : sanitize_df recipe = recipe) by (vm_compute; reflexivity).
  assert (F : find_missing_parts_in_maps combos maps = Ok [])
    by (vm_compute; reflexivity).
  split; [vm_compute; reflexivity|]. split; [exact F|]. split.
  - pose proof (json_dumps_outcome float_repr
                  (as_object (maps : dict PlateMap))) as M.
    rewrite plate_maps_python in M. destruct M as [maps_json M].
    pose proof (json_dumps_outcome float_repr (as_object combos)) as C.
    rewrite combinations_numpy in C.
    replace (existsb numpy_name combos) with false in C
      by (vm_compute; reflexivity).
    destruct C as [combos_json C].
    exists maps_json, combos_json. split; [exact M|]. split; [exact C|].
    unfold colony_pcr. cbv zeta. rewrite S.
    change (generate_combinations recipe) with combos.
    change (Dict [ (py "colony_template_map", process_plate_map_df (sanitize_df colony));
                   (py "pcr_deck_map", process_plate_map_df (sanitize_df deck)) ])
      with maps.
    rewrite F, create_protocol_flat.
    destruct (decode_utf8 (getvalue file_tpl)); [rewrite M, C|]; reflexivity.
  - unfold golden_gate. cbv zeta. rewrite S.
    change (generate_combinations recipe) with combos.
    assert (G : find_missing_parts_in_maps combos
                  (generate_plate_maps (sanitize_df colony) (sanitize_df deck))
                = Ok []) by (vm_compute; reflexivity).
    rewrite G. reflexivity.
Qed.

(** C3. With the header flag set, the Colony PCR handler drops the first row
    of the recipe table only: the colony and deck tables keep theirs, which
    becomes a row of their plate maps, so a recipe that refers to a header
    cell of a map passes validation.  The Golden Gate handler drops the
    first row of all three of its tables, and reports that part missing. *)
Theorem colony_pcr_keeps_map_headers (float_repr : pyfloat -> str)
    (decode_utf8 : list Byte.byte -> result str) (file_tpl : UploadedFile)
    (df_a df_b df_c : DataFrame) :
  let colony := [ mkRow (Val (Str (py "well"))) []; mkRow (Val (Str (py "A1"))) [] ] in
  let deck := [ mkRow (Val (Str (py "reagent"))) []; mkRow (Val (Str (py "mix"))) [] ] in
  let recipe := [ mkRow (Val (Str (py "name"))) [Val (Str (py "part"))];
                  mkRow (Val (Str (py "r1"))) [Val (Str (py "well"))] ] in
  let combos := [ {| name := Str (py "r1"); parts := [Str (py "well")] |} ] in
  let maps :=
    Dict [ (py "colony_template_map", [[Str (py "well")]; [Str (py "A1")]]);
           (py "pcr_deck_map", [[Str (py "reagent")]; [Str (py "mix")]]) ] in
  colony_pcr float_repr decode_utf8 (Some df_a) (Some df_b) (Some df_c)
    (Some file_tpl) Yes
  = colony_pcr float_repr decode_utf8 (Some df_a) (Some df_b)
      (Some (drop_first_row df_c)) (Some file_tpl) No
  /\ golden_gate float_repr decode_utf8 (Some df_a) (Some df_b) (Some df_c)
       (Some file_tpl) Yes
     = golden_gate float_repr decode_utf8 (Some (drop_first_row df_a))
         (Some (drop_first_row df_b)) (Some (drop_first_row df_c))
         (Some file_tpl) No
  /\ (exists maps_json combos_json,
        json_dumps float_repr (as_object maps) = Ok maps_json
        /\ json_dumps float_repr (as_object combos) = Ok combos_json
        /\ colony_pcr float_repr decode_utf8 (Some colony) (Some deck)
             (Some recipe) (Some file_tpl) Yes
           = match decode_utf8 (getvalue file_tpl) with
             | Ok template_body =>
                 ProtocolReady combos (py "colony_pcr_protocol.py")
                   (py "pcr_deck_colony_template_maps_dict" ++ py " = "
                    ++ maps_json ++ [10; 10]%N
                    ++ py "pcr_recipe_to_make" ++ py " = "
                    ++ combos_json ++ [10; 10]%N
                    ++ template_body)
             | Raise e => ErrorMessage e
             end)
  /\ golden_gate float_repr decode_utf8 (Some colony) (Some deck) (Some recipe)
       (Some file_tpl) Yes
     = MissingParts [Str (py "well")].
Proof.
  intros colony deck recipe combos maps. split; [|split; [|split]].
  - unfold colony_pcr. cbv zeta. now rewrite sanitize_df_drop_first_row.
  - unfold golden_gate. cbv zeta. now rewrite !sanitize_df_drop_first_row.
  - pose proof (json_dumps_outcome float_repr
                  (as_object (maps : dict PlateMap))) as M.
    rewrite plate_maps_python in M. destruct M as [maps_json M].
    pose proof (json_dumps_outcome float_repr (as_object combos)) as C.
    rewrite combinations_numpy in C. cbn [existsb numpy_name name combos] in C.
    destruct C as [combos_json C].
    exists maps_json, combos_json. split; [exact M|]. split; [exact C|].
    unfold colony_pcr. cbv zeta.
    change (generate_combinations (drop_first_row (sanitize_df recipe))) with combos.
    change (Dict [ (py "colony_template_map", process_plate_map_df (sanitize_df colony));
                   (py "pcr_deck_map", process_plate_map_df (sanitize_df deck)) ])
      with maps.
    assert (F : find_missing_parts_in_maps combos maps = Ok []) by reflexivity.
    rewrite F, create_protocol_flat.
    destruct (decode_utf8 (getvalue file_tpl)); [rewrite M, C|]; reflexivity.
  - reflexivity.
Qed.

(** ** The scenarios of the specification *)

Section Scenarios.

Variable float_repr : pyfloat -> str.
Variable decode_utf8 : list Byte.byte -> result str.
Variable file_tpl : UploadedFile.

(** Parts A, B, C and D, E in the maps, one combination of A and D: nothing
    is missing and the protocol is the two assignments and the template. *)
Example golden_gate_scenario_1 :
  golden_gate float_repr decode_utf8
    (Some [mkRow (text "A") [text "B"; text "C"]])
    (Some [mkRow (text "D") [text "E"]])
    (Some [mkRow (text "combo1") [text "A"; text "D"]])
    (Some file_tpl) No
  = match decode_utf8 (getvalue file_tpl) with
    | Ok template_body =>
        ProtocolReady
          [ {| name := Str (py "combo1"); parts := [Str (py "A"); Str (py "D")] |} ]
          (py "golden_gate_protocol.py")
          (dq "dna_plate_map_dict = {'PlateMap1': [['A', 'B', 'C']], 'PlateMap2': [['D', 'E']]}"
           ++ [10; 10]%N
           ++ dq "combinations_to_make = [{'name': 'combo1', 'parts': ['A', 'D']}]"
           ++ [10; 10]%N
           ++ template_body)
    | Raise e => ErrorMessage e
    end.
Proof.
  unfold golden_gate, create_protocol, mbind, result_bind.
  destruct (decode_utf8 (getvalue file_tpl)); vm_compute; reflexivity.
Qed.

(** A combination that refers to Z, which no map holds: Z is reported and
    nothing is built. *)
Example golden_gate_scenario_2 :
  golden_gate float_repr decode_utf8
    (Some [mkRow (text "A") [text "B"; text "C"]])
    (Some [mkRow (text "D") [text "E"]])
    (Some [mkRow (text "combo1") [text "A"; text "Z"]])
    (Some file_tpl) No
  = MissingParts [Str (py "Z")].
Proof. reflexivity. Qed.

(** A cell of blanks and an absent cell end as empty markers, and the plate
    map drops both. *)
Example plate_map_scenario_4 :
  process_plate_map_df
    (sanitize_df [mkRow (text "A1") [text " "; NaN; text "B1"]])
  = [[Str (py "A1"); Str (py "B1")]].
Proof. reflexivity. Qed.

(** The JSON text of values other than plain text. *)
Example json_dumps_values :
  json_dumps float_repr
    (as_object [Int (-12); Bool true; Bool false; Float (FInf true);
                Str [34; 92; 10; 233; 128512; 127]%N])
  = Ok (dq "[-12, true, false, -Infinity, '\'\\\n\u00e9\ud83d\ude00\u007f']").
Proof. reflexivity. Qed.

(** A combination named by a numpy scalar has no JSON text; named by the
    equal Python integer it has one. *)
Example json_dumps_int64 :
  json_dumps float_repr
    (as_object [ {| name := Np (Int64 1); parts := [Int 10] |} ])
  = Raise TypeError
  /\ json_dumps float_repr
       (as_object [ {| name := Int 1; parts := [Int 10] |} ])
     = Ok (dq "[{'name': 1, 'parts': [10]}]").
Proof. split; reflexivity. Qed.

(** A recipe table of integers, or of booleans, whose parts are in the
    maps: validation passes and the Colony PCR handler ends with the error
    message of [json.dumps]. *)
Example colony_pcr_numpy_names :
  colony_pcr float_repr decode_utf8
    (Some [mkRow (Val (Int 10)) []]) (Some [mkRow (text "mix") []])
    (Some [mkRow (Val (Int 1)) [Val (Int 10)]]) (Some file_tpl) No
  = match decode_utf8 (getvalue file_tpl) with
    | Ok _ => ErrorMessage TypeError
    | Raise e => ErrorMessage e
    end
  /\ colony_pcr float_repr decode_utf8
       (Some [mkRow (Val (Bool true)) []]) (Some [mkRow (text "mix") []])
       (Some [mkRow (Val (Bool false)) [Val (Bool true)]]) (Some file_tpl) No
     = match decode_utf8 (getvalue file_tpl) with
       | Ok _ => ErrorMessage TypeError
       | Raise e => ErrorMessage e
       end.
Proof.
  unfold colony_pcr, create_protocol, mbind, result_bind.
  split; destruct (decode_utf8 (getvalue file_tpl)); vm_compute; reflexivity.
Qed.

End Scenarios.

(** * Further properties *)

(** ** The two builders *)

(** Indexing gives the value of the cell, as a Python object or as the
    numpy scalar equal to it. *)
Lemma item_value_getitem0 (row : Row) (v : scalar) :
  item_value (getitem0 row v) = v.
Proof.
  unfold getitem0. destruct (series_dtype row), v; reflexivity.
Qed.

(** X1. The combinations come in the order of the rows: the values of their
    names are the first cells that are not empty, in order, and the parts of
    each are the other cells of its row that are not empty, in order. *)
Theorem generate_combinations_rows (df : DataFrame) :
  List.map (fun c => Val (item_value (name c))) (generate_combinations df)
  = List.filter notna (List.map row0 df)
  /\ List.map (fun c => List.map Val (parts c)) (generate_combinations df)
     = List.map (fun r => List.filter notna (row_rest r))
         (List.filter (fun r => notna (row0 r)) df)
  /\ List.length (generate_combinations df)
     = List.length (List.filter (fun r => notna (row0 r)) df).
Proof.
  rewrite generate_combinations_eq.
  induction df as [|r df [IH1 [IH2 IH3]]]; [now repeat split|].
  simpl. destruct (row0 r) as [| |v]; simpl; [now repeat split..|].
  rewrite IH1, IH2, IH3, notna_values_filter, item_value_getitem0.
  now repeat split.
Qed.

(** X2. A table read as a plate map and read as combinations gives the same
    rows: each row of the plate map is the value of the name of the
    combination of that row followed by its parts. *)
Theorem plate_map_rows_are_combinations (df : DataFrame) :
  process_plate_map_df df
  = List.map (fun c => item_value (name c) :: parts c)
      (generate_combinations df).
Proof.
  rewrite process_plate_map_df_eq, generate_combinations_eq.
  induction df as [|r df IH]; [reflexivity|].
  simpl. destruct (row0 r) as [| |v] eqn:E; simpl; [exact IH..|].
  f_equal; [|exact IH]. unfold tolist.
  now rewrite E, item_value_getitem0.
Qed.

(** X3. Both builders work row by row, with nothing carried from one row to
    the next: the result for two tables one after the other is the two
    results one after the other. *)
Theorem builders_row_by_row (df1 df2 : DataFrame) :
  process_plate_map_df (df1 ++ df2)
  = process_plate_map_df df1 ++ process_plate_map_df df2
  /\ generate_combinations (df1 ++ df2)
     = generate_combinations df1 ++ generate_combinations df2.
Proof.
  rewrite !process_plate_map_df_eq, !generate_combinations_eq. split.
  - now rewrite List.filter_app, List.map_app.
  - apply List.flat_map_app.
Qed.

Lemma notna_values_In (l : list cell) (v : scalar) :
  In v (notna_values l) <-> In (Val v) l.
Proof.
  induction l as [|[| |w] l IH]; simpl.
  - reflexivity.
  - rewrite IH. split; [auto|]. now intros [|].
  - rewrite IH. split; [auto|]. now intros [|].
  - rewrite IH. split; intros [H|H]; auto; left; congruence.
Qed.

Lemma process_plate_map_df_In (df : DataFrame) (item : scalar) :
  (exists row, In row (process_plate_map_df df) /\ In item row)
  <-> exists r, In r df /\ notna (row0 r) = true /\ In (Val item) (tolist r).
Proof.
  rewrite process_plate_map_df_eq. split.
  - intros [row [Hrow Hitem]].
    apply in_map_iff in Hrow as [r [<- Hr]]. apply filter_In in Hr as [Hr N].
    exists r. repeat split; [exact Hr|exact N|]. now apply notna_values_In.
  - intros [r [Hr [N Hitem]]]. exists (notna_values (tolist r)). split.
    + apply in_map_iff. exists r. split; [reflexivity|]. now apply filter_In.
    + now apply notna_values_In.
Qed.

(** X4. The values the validator finds in the plate maps of two tables are
    the cells that are not empty in the rows whose first cell is not empty:
    a part listed in a row with an empty first cell is not available. *)
Theorem generate_plate_maps_values (df1 df2 : DataFrame) (item : scalar) :
  in_maps (generate_plate_maps df1 df2) item
  <-> exists r, (In r df1 \/ In r df2) /\ notna (row0 r) = true
                /\ In (Val item) (tolist r).
Proof.
  unfold in_maps, generate_plate_maps, values. simpl. split.
  - intros [plate [row [[<-|[<-|[]]] H]]].
    + destruct (proj1 (process_plate_map_df_In df1 item)) as [r [Hr K]];
        [now exists row|]. exists r. auto.
    + destruct (proj1 (process_plate_map_df_In df2 item)) as [r [Hr K]];
        [now exists row|]. exists r. auto.
  - intros [r [[Hr|Hr] K]].
    + destruct (proj2 (process_plate_map_df_In df1 item)) as [row H];
        [now exists r|]. exists (process_plate_map_df df1), row. auto.
    + destruct (proj2 (process_plate_map_df_In df2 item)) as [row H];
        [now exists r|]. exists (process_plate_map_df df2), row. auto.
Qed.

(** ** sanitize_df and detect_header_row *)

Lemma strip_trimmed (s : str) :
  strip s <> [] -> trimmed (strip s) = true.
Proof.
  destruct (strip s) as [|c t] eqn:E; [contradiction|]. intros _.
  assert (N : c :: t <> []) by discriminate.
  pose proof (app_removelast_last c N) as L.
  assert (K : isspace (List.last (c :: t) c) = false).
  { apply (strip_last s (removelast (c :: t))). now rewrite E. }
  change (trimmed (c :: t))
    with (negb (isspace c) && negb (isspace (List.last (c :: t) c))).
  now rewrite K, (strip_head _ _ _ E).
Qed.

Lemma spec_normalize_trimmed (x : cell) :
  match spec_normalize x with
  | Val (Str t) => trimmed t = true
  | _ => True
  end.
Proof.
  destruct x as [| |[s|z|f|b]]; simpl; try exact I.
  destruct (strip s) as [|c t] eqn:E; [exact I|].
  rewrite <- E. apply strip_trimmed. now rewrite E.
Qed.

(** X5. In every table that [sanitize_df] returns, a text cell is never
    empty and has no whitespace at its start or at its end. *)
Theorem sanitize_df_text_trimmed (df : DataFrame) :
  Forall
    (fun r =>
       Forall
         (fun x =>
            match x with
            | Val (Str t) => trimmed t = true
            | _ => True
            end)
         (tolist r))
    (sanitize_df df).
Proof.
  rewrite sanitize_df_cells. unfold applymap.
  apply List.Forall_forall. intros r Hr.
  apply in_map_iff in Hr as [r0 [<- _]].
  apply List.Forall_forall. intros x Hx. unfold tolist in Hx. simpl in Hx.
  destruct Hx as [<-|Hx]; [apply spec_normalize_trimmed|].
  apply in_map_iff in Hx as [x0 [<- _]]. apply spec_normalize_trimmed.
Qed.

Lemma ascii_letter_not_space (c : char) :
  ascii_letter c = true -> isspace c = false.
Proof.
  unfold ascii_letter, isspace, in_range. intros H.
  apply not_true_is_false. intros S.
  repeat (rewrite ?orb_true_iff, ?andb_true_iff, ?N.leb_le, ?N.eqb_eq in H).
  repeat (rewrite ?orb_true_iff, ?andb_true_iff, ?N.leb_le, ?N.eqb_eq in S).
  lia.
Qed.

Lemma has_letter_lstrip (s : str) : has_letter (lstrip s) = has_letter s.
Proof.
  induction s as [|c s IH]; [reflexivity|]. simpl.
  destruct (isspace c) eqn:S; [|reflexivity].
  rewrite IH. destruct (ascii_letter c) eqn:L; [|reflexivity].
  rewrite (ascii_letter_not_space c L) in S. discriminate.
Qed.

Lemma has_letter_rev (s : str) : has_letter (rev s) = has_letter s.
Proof.
  unfold has_letter. induction s as [|c s IH]; [reflexivity|].
  simpl. rewrite existsb_app, IH. simpl. rewrite orb_false_r. apply orb_comm.
Qed.

Lemma has_letter_strip (s : str) : has_letter (strip s) = has_letter s.
Proof.
  unfold strip, rstrip.
  now rewrite has_letter_rev, has_letter_lstrip, has_letter_rev, has_letter_lstrip.
Qed.

Section SnifferAfterSanitize.

Variable isdecimal : char -> bool.

Lemma scan_below_normalize (others : list cell) :
  scan_below isdecimal (List.map spec_normalize others)
  = scan_below isdecimal others.
Proof.
  induction others as [|x l IH]; [reflexivity|].
  destruct x as [| |[t|z|f|b]];
    cbn [List.map spec_normalize scan_below looks_numeric];
    try exact IH; try reflexivity.
  destruct (strip t) as [|c u] eqn:E; cbn [scan_below looks_numeric].
  - rewrite IH. reflexivity.
  - rewrite <- E, strip_idem, IH. reflexivity.
Qed.

Lemma column_normalize (rest : DataFrame) (j : nat) :
  column (applymap spec_normalize rest) j
  = List.map spec_normalize (column rest j).
Proof.
  unfold column, applymap. rewrite !List.map_map. apply List.map_ext.
  intros r. change NaN with (spec_normalize NaN) at 1.
  change (tolist {| row0 := spec_normalize (row0 r);
                    row_rest := List.map spec_normalize (row_rest r) |})
    with (List.map spec_normalize (tolist r)).
  apply List.map_nth.
Qed.

Lemma scan_first_normalize (l : list cell) (a : nat) (rest : DataFrame) :
  scan_first isdecimal
    (combine (seq a (List.length (List.map spec_normalize l)))
       (List.map spec_normalize l))
    (applymap spec_normalize rest)
  = scan_first isdecimal (combine (seq a (List.length l)) l) rest.
Proof.
  revert a. induction l as [|x l IH]; intros a; [reflexivity|].
  simpl. rewrite IH, column_normalize, scan_below_normalize.
  destruct x as [| |[s|z|f|b]]; simpl; try reflexivity.
  destruct (strip s) as [|c u] eqn:E.
  - rewrite <- (has_letter_strip s), E. reflexivity.
  - rewrite <- E, has_letter_strip. reflexivity.
Qed.

(** X6. [detect_header_row] gives the same answer on a table and on the
    table normalised by [sanitize_df]: it skips empty cells and strips the
    text it tests by itself. *)
Theorem detect_header_row_sanitize (df : DataFrame) :
  detect_header_row isdecimal (sanitize_df df) = detect_header_row isdecimal df.
Proof.
  rewrite sanitize_df_cells. unfold detect_header_row.
  assert (L : List.length (applymap spec_normalize df) = List.length df)
    by (unfold applymap; apply List.length_map).
  rewrite L. destruct (List.length df <? 2)%nat; [reflexivity|].
  destruct df as [|first rest]; [reflexivity|].
  unfold enumerate.
  change (applymap spec_normalize (first :: rest))
    with (mkRow (spec_normalize (row0 first))
            (List.map spec_normalize (row_rest first))
          :: applymap spec_normalize rest).
  cbv beta iota.
  change (tolist {| row0 := spec_normalize (row0 first);
                    row_rest := List.map spec_normalize (row_rest first) |})
    with (List.map spec_normalize (tolist first)).
  apply scan_first_normalize.
Qed.

End SnifferAfterSanitize.

(** ** The validator *)

Lemma available_parts_present (plate_maps_dict : dict PlateMap) (p : scalar) :
  contains (available_parts plate_maps_dict) p = true <-> present plate_maps_dict p.
Proof.
  rewrite available_parts_contains. unfold present, in_maps. split.
  - intros E.
    apply existsb_exists in E as [plate [Hp E]].
    apply existsb_exists in E as [row [Hr E]].
    apply existsb_exists in E as [item [Hi E]].
    exists item. split; [now exists plate, row|exact E].
  - intros [item [[plate [row [Hp [Hr Hi]]]] E]].
    apply existsb_exists. exists plate. split; [exact Hp|].
    apply existsb_exists. exists row. split; [exact Hr|].
    apply existsb_exists. now exists item.
Qed.

Lemma present_or_absent (plate_maps_dict : dict PlateMap) (p : scalar) :
  present plate_maps_dict p \/ absent plate_maps_dict p.
Proof.
  destruct (contains (available_parts plate_maps_dict) p) eqn:C.
  - left. now apply available_parts_present.
  - right. now apply available_parts_spec.
Qed.

Lemma present_not_absent (plate_maps_dict : dict PlateMap) (p : scalar) :
  present plate_maps_dict p -> absent plate_maps_dict p -> False.
Proof. intros [item [H E]] A. rewrite (A item H) in E. discriminate. Qed.

(** X7. When the parts are all text, or all numbers, the validator returns:
    its result is strictly increasing, every value in it is a part that
    equals no value of the plate maps, and every such part is in it up to
    [==]. *)
Theorem find_missing_parts_in_maps_uniform (combos_list : list Combination)
    (plate_maps_dict : dict PlateMap) :
  (forall p q, referenced combos_list p -> referenced combos_list q ->
               is_text p = is_text q) ->
  exists missing,
    find_missing_parts_in_maps combos_list plate_maps_dict = Ok missing
    /\ StronglySorted lt missing
    /\ (forall x, In x missing ->
          referenced combos_list x /\ absent plate_maps_dict x)
    /\ (forall p, referenced combos_list p -> absent plate_maps_dict p ->
          exists x, In x missing /\ py_eq x p = true).
Proof.
  intros U.
  pose proof (find_missing_parts_in_maps_spec combos_list plate_maps_dict) as S.
  destruct (find_missing_parts_in_maps combos_list plate_maps_dict) as [l|e].
  - exists l. destruct S as [S [I C]]. auto.
  - destruct S as [_ [a [b [Ra [_ [Ta [Rb [_ Tb]]]]]]]].
    specialize (U a b Ra Rb). congruence.
Qed.

Lemma find_missing_parts_in_maps_uniform_witness :
  exists missing,
    find_missing_parts_in_maps
      [ {| name := Str (py "c1"); parts := [Int 3; Float (FZero false); Int 2] |};
        {| name := Str (py "c2"); parts := [Bool false; Int 2] |} ]
      (Dict [ (py "PlateMap1", [[Int 3]]); (py "PlateMap2", []) ])
    = Ok missing
    /\ missing = [Float (FZero false); Int 2].
Proof.
  destruct (find_missing_parts_in_maps_uniform
              [ {| name := Str (py "c1");
                   parts := [Int 3; Float (FZero false); Int 2] |};
                {| name := Str (py "c2"); parts := [Bool false; Int 2] |} ]
              (Dict [ (py "PlateMap1", [[Int 3]]); (py "PlateMap2", []) ]))
    as [missing [E _]].
  - intros p q [c [Hc Hp]] [d [Hd Hq]]. simpl in Hc, Hd.
    destruct Hc as [<-|[<-|[]]], Hd as [<-|[<-|[]]]; simpl in Hp, Hq;
      repeat (destruct Hp as [<-|Hp]; try contradiction);
      repeat (destruct Hq as [<-|Hq]; try contradiction); reflexivity.
  - exists missing. split; [exact E|]. vm_compute in E. congruence.
Defined.

Lemma missing_empty_iff_present (combos_list : list Combination)
    (plate_maps_dict : dict PlateMap) :
  find_missing_parts_in_maps combos_list plate_maps_dict = Ok []
  <-> forall p, referenced combos_list p -> present plate_maps_dict p.
Proof.
  pose proof (find_missing_parts_in_maps_spec combos_list plate_maps_dict) as S.
  split.
  - intros E p R. rewrite E in S. destruct S as [_ [_ C]].
    destruct (present_or_absent plate_maps_dict p) as [P|A]; [exact P|].
    destruct (C p R A) as [x [[] _]].
  - intros H.
    destruct (find_missing_parts_in_maps combos_list plate_maps_dict) as [[|x l]|e].
    + reflexivity.
    + destruct S as [_ [I _]]. destruct (I x (or_introl eq_refl)) as [R A].
      destruct (present_not_absent _ _ (H x R) A).
    + destruct S as [_ [a [_ [Ra [Aa _]]]]].
      destruct (present_not_absent _ _ (H a Ra) Aa).
Qed.

(** X8. The validator lets a run pass, returning the empty list, exactly
    when every part of every combination equals some value of a plate
    map. *)
Theorem find_missing_parts_in_maps_passes (combos_list : list Combination)
    (plate_maps_dict : dict PlateMap) :
  find_missing_parts_in_maps combos_list plate_maps_dict = Ok []
  <-> forall p, referenced combos_list p -> present plate_maps_dict p.
Proof. apply missing_empty_iff_present. Qed.

Lemma lt_irrefl (a : scalar) : ~ lt a a.
Proof. intros H. pose proof (py_lt_asym a a H) as N. unfold lt in H. congruence. Qed.

Lemma strictly_sorted_NoDup (l : list scalar) :
  StronglySorted lt l -> List.NoDup l.
Proof.
  induction 1 as [|a l S IH F]; constructor; [|exact IH].
  intros Ha. rewrite List.Forall_forall in F. exact (lt_irrefl a (F a Ha)).
Qed.

Lemma strictly_sorted_same_elements (l1 l2 : list scalar) :
  StronglySorted lt l1 -> StronglySorted lt l2 ->
  (forall x, In x l1 <-> In x l2) -> l1 = l2.
Proof.
  intros S1 S2 H. apply strictly_sorted_unique; [|exact S1|exact S2].
  apply Stdlib.Sorting.Permutation.NoDup_Permutation;
    [now apply strictly_sorted_NoDup..|exact H].
Qed.

(** X9. With text parts, the report depends only on which parts are
    referred to and which values the plate maps hold: the order of the
    combinations, of the parts, of the maps and of their rows, and
    repetitions, do not change it. *)
Theorem find_missing_parts_in_maps_order (combos1 combos2 : list Combination)
    (maps1 maps2 : dict PlateMap) :
  (forall p, referenced combos1 p -> is_text p = true) ->
  (forall p, referenced combos1 p <-> referenced combos2 p) ->
  (forall item, in_maps maps1 item <-> in_maps maps2 item) ->
  find_missing_parts_in_maps combos1 maps1
  = find_missing_parts_in_maps combos2 maps2.
Proof.
  intros T R M.
  destruct (find_missing_parts_in_maps_text combos1 maps1 T) as [l1 [E1 [S1 I1]]].
  destruct (find_missing_parts_in_maps_text combos2 maps2) as [l2 [E2 [S2 I2]]].
  { intros p Hp. apply T. now apply R. }
  rewrite E1, E2. f_equal. apply strictly_sorted_same_elements; [exact S1|exact S2|].
  intros x. rewrite I1, I2, R. unfold absent.
  split; intros [Hx A]; (split; [exact Hx|]); intros item Hi; apply A; now apply M.
Qed.

Lemma find_missing_parts_in_maps_order_witness :
  find_missing_parts_in_maps
    [ {| name := Str (py "c1"); parts := [Str (py "Z"); Str (py "A")] |};
      {| name := Str (py "c2"); parts := [Str (py "Q")] |} ]
    (Dict [ (py "PlateMap1", [[Str (py "A")]]); (py "PlateMap2", []) ])
  = find_missing_parts_in_maps
      [ {| name := Str (py "c2"); parts := [Str (py "Q"); Str (py "Q")] |};
        {| name := Str (py "c1"); parts := [Str (py "A"); Str (py "Z")] |} ]
      (Dict [ (py "PlateMap1", []); (py "PlateMap2", [[]; [Str (py "A")]]) ]).
Proof.
  apply find_missing_parts_in_maps_order.
  - intros p [c [Hc Hp]]. simpl in Hc.
    destruct Hc as [<-|[<-|[]]]; simpl in Hp;
      repeat (destruct Hp as [<-|Hp]; try contradiction); reflexivity.
  - intros p. unfold referenced. split; intros [c [Hc Hp]]; simpl in Hc;
      destruct Hc as [<-|[<-|[]]]; simpl in Hp;
      repeat (destruct Hp as [<-|Hp]; try contradiction);
      first [ eexists; split; [left; reflexivity|simpl; now auto]
            | eexists; split; [right; left; reflexivity|simpl; now auto] ].
  - intros item. unfold in_maps, values. simpl.
    split; intros [plate [row [Hp [Hr Hi]]]];
      repeat (destruct Hp as [<-|Hp]; try contradiction); simpl in Hr;
      repeat (destruct Hr as [<-|Hr]; try contradiction); simpl in Hi;
      repeat (destruct Hi as [<-|Hi]; try contradiction).
    + exists [[]; [Str (py "A")]], [Str (py "A")]. simpl. auto.
    + exists [[Str (py "A")]], [Str (py "A")]. simpl. auto.
Defined.

(** ** json.dumps *)

Lemma nth_forallb {A} (P : A -> bool) (l : list A) (n : nat) (d : A) :
  forallb P l = true -> P d = true -> P (nth n l d) = true.
Proof.
  revert n. induction l as [|x l IH]; intros [|n] H D; simpl; try exact D.
  - simpl in H. now apply andb_prop in H as [H _].
  - simpl in H. apply andb_prop in H as [_ H]. now apply IH.
Qed.

Lemma hex_digit_printable (n : N) : printable (hex_digit n) = true.
Proof. unfold hex_digit. now apply nth_forallb. Qed.

Lemma escape_u_printable (c : N) : forallb printable (escape_u c) = true.
Proof.
  unfold escape_u. cbn [forallb]. rewrite !hex_digit_printable. reflexivity.
Qed.

Lemma escape_char_printable (c : char) :
  forallb printable (escape_char c) = true.
Proof.
  unfold escape_char.
  repeat (match goal with
          | |- context [if ?b then _ else _] => destruct b eqn:?
          end; try reflexivity).
  - simpl. now rewrite andb_true_r.
  - apply escape_u_printable.
  - rewrite forallb_app, !escape_u_printable. reflexivity.
Qed.

Lemma forallb_concat {A} (P : A -> bool) (l : list (list A)) :
  (forall x, In x l -> forallb P x = true) -> forallb P (List.concat l) = true.
Proof.
  induction l as [|x l IH]; intros H; simpl; [reflexivity|].
  rewrite forallb_app, (H x (or_introl eq_refl)). apply IH.
  intros y Hy. apply H. now right.
Qed.

Lemma json_string_printable (s : str) :
  forallb printable (json_string s) = true.
Proof.
  unfold json_string. rewrite !forallb_app. rewrite forallb_concat; [reflexivity|].
  intros x Hx. apply in_map_iff in Hx as [c [<- _]]. apply escape_char_printable.
Qed.

Lemma join_printable (sep : str) (l : list str) :
  forallb printable sep = true ->
  (forall x, In x l -> forallb printable x = true) ->
  forallb printable (join sep l) = true.
Proof.
  intros S. induction l as [|x l IH]; intros H; [reflexivity|].
  destruct l as [|y l]; [apply H; now left|].
  change (join sep (x :: y :: l)) with (x ++ sep ++ join sep (y :: l)).
  rewrite !forallb_app, S, (H x (or_introl eq_refl)). apply IH.
  intros z Hz. apply H. now right.
Qed.

Lemma uint_printable (d : Decimal.uint) :
  forallb printable (py (NilEmpty.string_of_uint d)) = true.
Proof. induction d; simpl; try reflexivity; exact IHd. Qed.

Lemma int_repr_printable (z : Z) : forallb printable (int_repr z) = true.
Proof.
  unfold int_repr, NilZero.string_of_int, NilZero.string_of_uint.
  destruct (Z.to_int z) as [d|d]; destruct d; try reflexivity;
    apply (uint_printable (_ d)) || (simpl; apply uint_printable).
Qed.

Section JsonText.

Variable float_repr : pyfloat -> str.
Hypothesis float_repr_printable :
  forall f, forallb printable (float_repr f) = true.

Lemma json_scalar_printable (v : scalar) :
  forallb printable (json_scalar float_repr v) = true.
Proof.
  destruct v as [s|z|f|[|]]; simpl; try reflexivity.
  - apply json_string_printable.
  - apply int_repr_printable.
  - destruct f as [?|[|]|? ? ?]; try reflexivity; apply float_repr_printable.
Qed.

Lemma json_dumps_Ok_printable (o : pyobj) (s : str) :
  json_dumps float_repr o = Ok s -> forallb printable s = true.
Proof.
  revert o s. fix IH 1. intros [v|x|l|d] s H.
  - apply Ok_inj in H. subst s. apply json_scalar_printable.
  - discriminate H.
  - cbn [json_dumps] in H.
    destruct (map_result (json_dumps float_repr) l) as [chunks|e] eqn:E;
      [|discriminate H].
    apply Ok_inj in H. subst s. rewrite !forallb_app.
    rewrite join_printable; [reflexivity|reflexivity|].
    revert chunks E. induction l as [|x l IHl]; intros chunks E c Hc.
    + apply Ok_inj in E. subst chunks. destruct Hc.
    + rewrite map_result_cons in E.
      destruct (json_dumps float_repr x) as [y|e] eqn:Ex; [|discriminate E].
      destruct (map_result (json_dumps float_repr) l) as [ys|e] eqn:El;
        [|discriminate E].
      apply Ok_inj in E. subst chunks.
      destruct Hc as [<-|Hc]; [exact (IH x y Ex)|exact (IHl ys eq_refl c Hc)].
  - cbn [json_dumps] in H.
    match type of H with
    | context [map_result ?f d] =>
        destruct (map_result f d) as [chunks|e] eqn:E; [|discriminate H]
    end.
    apply Ok_inj in H. subst s. rewrite !forallb_app.
    rewrite join_printable; [reflexivity|reflexivity|].
    revert chunks E. induction d as [|[k x] d IHd]; intros chunks E c Hc.
    + apply Ok_inj in E. subst chunks. destruct Hc.
    + rewrite map_result_cons in E. cbn [fst snd] in E.
      destruct (json_dumps float_repr x) as [y|e] eqn:Ex; [|discriminate E].
      match type of E with
      | context [map_result ?f d] =>
          destruct (map_result f d) as [ys|e] eqn:El; [|discriminate E]
      end.
      apply Ok_inj in E. subst chunks.
      destruct Hc as [<-|Hc]; [|exact (IHd ys eq_refl c Hc)].
      rewrite !forallb_app, json_string_printable, (IH x y Ex). reflexivity.
Qed.

(** X10. When [float.__repr__] gives printable ASCII (it does), so does
    [json.dumps], for every object it accepts, and it accepts every object
    without a numpy scalar: the text holds no line break and no character
    outside ASCII, so each assignment that [create_protocol] writes is one
    line of the script. *)
Theorem json_dumps_printable (o : pyobj) :
  if has_numpy o then json_dumps float_repr o = Raise TypeError
  else exists s, json_dumps float_repr o = Ok s
                 /\ forallb printable s = true.
Proof.
  pose proof (json_dumps_outcome float_repr o) as H.
  destruct (has_numpy o); [exact H|].
  destruct H as [s H]. exists s. split; [exact H|].
  exact (json_dumps_Ok_printable o s H).
Qed.

End JsonText.

Lemma json_dumps_printable_witness :
  exists s,
    json_dumps (fun _ => py "0.5")
      (as_object
         [ {| name := Str [10; 233]%N;
              parts := [Float (FFinite false 1 (-1)); Int (-7); Bool true] |} ])
    = Ok s
    /\ forallb printable s = true.
Proof.
  exact (json_dumps_printable (fun _ => py "0.5") (fun f => eq_refl)
           (as_object
              [ {| name := Str [10; 233]%N;
                   parts := [Float (FFinite false 1 (-1)); Int (-7);
                             Bool true] |} ])).
Defined.

(** ** The handlers of [main], case by case *)

Lemma ProtocolReady_inj (p p' : list Combination) (f f' d d' : str) :
  ProtocolReady p f d = ProtocolReady p' f' d' -> p = p' /\ f = f' /\ d = d'.
Proof. intros H. injection H. auto. Qed.

Section Handlers.

Variable float_repr : pyfloat -> str.
Variable decode_utf8 : list Byte.byte -> result str.

Lemma golden_gate_some (df1 df2 df3 : DataFrame) (file_tpl : UploadedFile)
    (mode : header_mode) :
  golden_gate float_repr decode_utf8 (Some df1) (Some df2) (Some df3)
    (Some file_tpl) mode
  = let dna_dict :=
      generate_plate_maps (after_header mode (sanitize_df df1))
        (after_header mode (sanitize_df df2)) in
    let combos := generate_combinations (after_header mode (sanitize_df df3)) in
    match find_missing_parts_in_maps combos dna_dict with
    | Raise e => ErrorMessage e
    | Ok ((_ :: _) as missing) => MissingParts missing
    | Ok [] =>
        if (96 <? List.length combos)%nat then MaxCombinations combos
        else
          match decode_utf8 (getvalue file_tpl) with
          | Ok template_body =>
              match json_dumps float_repr (as_object dna_dict) with
              | Ok dict_json =>
                  match json_dumps float_repr (as_object combos) with
                  | Ok combos_json =>
                      ProtocolReady combos (py "golden_gate_protocol.py")
                        ((py "dna_plate_map_dict" ++ py " = "
                          ++ dict_json ++ [10; 10]%N
                          ++ py "combinations_to_make" ++ py " = "
                          ++ combos_json ++ [10; 10]%N)
                         ++ template_body)
                  | Raise e => ErrorMessage e
                  end
              | Raise e => ErrorMessage e
              end
          | Raise e => ErrorMessage e
          end
    end.
Proof.
  unfold golden_gate, after_header. destruct mode; cbv zeta;
    (match goal with
     | |- context [find_missing_parts_in_maps ?c ?m] =>
         destruct (find_missing_parts_in_maps c m) as [[|]|]; try reflexivity
     end);
    (match goal with
     | |- context [(96 <? ?n)%nat] => destruct (96 <? n)%nat; try reflexivity
     end);
    rewrite create_protocol_flat;
    (destruct (decode_utf8 (getvalue file_tpl)); [|reflexivity]);
    (repeat match goal with
            | |- context [json_dumps float_repr ?o] =>
                destruct (json_dumps float_repr o); [|reflexivity]
            end);
    f_equal; rewrite <- !app_assoc; reflexivity.
Qed.

Lemma colony_pcr_some (df_col df_deck df_rec : DataFrame)
    (file_pcr_tpl : UploadedFile) (mode : header_mode) :
  colony_pcr float_repr decode_utf8 (Some df_col) (Some df_deck) (Some df_rec)
    (Some file_pcr_tpl) mode
  = let pcr_dict :=
      Dict [ (py "colony_template_map", process_plate_map_df (sanitize_df df_col));
             (py "pcr_deck_map", process_plate_map_df (sanitize_df df_deck)) ] in
    let combos_pcr :=
      generate_combinations (after_header mode (sanitize_df df_rec)) in
    match find_missing_parts_in_maps combos_pcr pcr_dict with
    | Raise e => ErrorMessage e
    | Ok ((_ :: _) as missing) => MissingParts missing
    | Ok [] =>
        match decode_utf8 (getvalue file_pcr_tpl) with
        | Ok template_body =>
            match json_dumps float_repr (as_object pcr_dict) with
            | Ok dict_json =>
                match json_dumps float_repr (as_object combos_pcr) with
                | Ok combos_json =>
                    ProtocolReady combos_pcr (py "colony_pcr_protocol.py")
                      ((py "pcr_deck_colony_template_maps_dict" ++ py " = "
                        ++ dict_json ++ [10; 10]%N
                        ++ py "pcr_recipe_to_make" ++ py " = "
                        ++ combos_json ++ [10; 10]%N)
                       ++ template_body)
                | Raise e => ErrorMessage e
                end
            | Raise e => ErrorMessage e
            end
        | Raise e => ErrorMessage e
        end
    end.
Proof.
  unfold colony_pcr, after_header. destruct mode; cbv zeta;
    (match goal with
     | |- context [find_missing_parts_in_maps ?c ?m] =>
         destruct (find_missing_parts_in_maps c m) as [[|]|]; try reflexivity
     end);
    rewrite create_protocol_flat;
    (destruct (decode_utf8 (getvalue file_pcr_tpl)); [|reflexivity]);
    (repeat match goal with
            | |- context [json_dumps float_repr ?o] =>
                destruct (json_dumps float_repr o); [|reflexivity]
            end);
    f_equal; rewrite <- !app_assoc; reflexivity.
Qed.

(** X11. When the Golden Gate handler offers a protocol, the combinations
    are those of the combinations table (normalised, without its first row
    when the header answer is Yes), there are at most 96 of them, every part
    of every combination equals a value of one of the two plate maps, the
    file is named golden_gate_protocol.py, and the text ends with the
    decoded template. *)
Theorem golden_gate_protocol_ready (df1 df2 df3 : DataFrame)
    (file_tpl : UploadedFile) (mode : header_mode)
    (preview : list Combination) (file_name data : str) :
  golden_gate float_repr decode_utf8 (Some df1) (Some df2) (Some df3)
    (Some file_tpl) mode
  = ProtocolReady preview file_name data ->
  preview = generate_combinations (after_header mode (sanitize_df df3))
  /\ (List.length preview <= 96)%nat
  /\ (forall p, referenced preview p ->
        present
          (generate_plate_maps (after_header mode (sanitize_df df1))
             (after_header mode (sanitize_df df2))) p)
  /\ file_name = py "golden_gate_protocol.py"
  /\ exists header template_body,
       decode_utf8 (getvalue file_tpl) = Ok template_body
       /\ data = header ++ template_body.
Proof.
  rewrite golden_gate_some. cbv zeta.
  set (maps := generate_plate_maps _ _).
  set (combos := generate_combinations _).
  destruct (find_missing_parts_in_maps combos maps) as [[|]|] eqn:F;
    try discriminate.
  destruct (Nat.ltb_spec 96 (List.length combos)) as [|Hlen]; try discriminate.
  destruct (decode_utf8 (getvalue file_tpl)) as [body|] eqn:D; try discriminate.
  destruct (json_dumps float_repr (as_object maps)); try discriminate.
  destruct (json_dumps float_repr (as_object combos)); try discriminate.
  intros Out. apply ProtocolReady_inj in Out as [<- [<- <-]].
  split; [reflexivity|]. split; [exact Hlen|].
  split; [now apply missing_empty_iff_present|].
  split; [reflexivity|].
  eexists _, body. split; reflexivity.
Qed.

(** X12. The Golden Gate handler answers that at most 96 combinations are
    allowed only when there are more than 96 and validation has passed:
    every part of every combination equals a value of a plate map. *)
Theorem golden_gate_max_combinations (df1 df2 df3 : DataFrame)
    (file_tpl : UploadedFile) (mode : header_mode) (preview : list Combination) :
  golden_gate float_repr decode_utf8 (Some df1) (Some df2) (Some df3)
    (Some file_tpl) mode
  = MaxCombinations preview ->
  preview = generate_combinations (after_header mode (sanitize_df df3))
  /\ (96 < List.length preview)%nat
  /\ forall p, referenced preview p ->
       present
         (generate_plate_maps (after_header mode (sanitize_df df1))
            (after_header mode (sanitize_df df2))) p.
Proof.
  rewrite golden_gate_some. cbv zeta.
  set (maps := generate_plate_maps _ _).
  set (combos := generate_combinations _).
  destruct (find_missing_parts_in_maps combos maps) as [[|]|] eqn:F;
    try discriminate.
  destruct (Nat.ltb_spec 96 (List.length combos)) as [Hlen|].
  - intros Out. injection Out as <-.
    split; [reflexivity|]. split; [exact Hlen|].
    now apply missing_empty_iff_present.
  - destruct (decode_utf8 (getvalue file_tpl)); [|discriminate].
    destruct (json_dumps float_repr (as_object maps)); [|discriminate].
    destruct (json_dumps float_repr (as_object combos)); discriminate.
Qed.

(** X13. When the Golden Gate handler reports missing parts, the list is
    not empty and strictly increasing, and each value in it is a part of
    some combination that equals no value of either plate map. *)
Theorem golden_gate_missing_parts (df1 df2 df3 : DataFrame)
    (file_tpl : UploadedFile) (mode : header_mode) (missing : list scalar) :
  golden_gate float_repr decode_utf8 (Some df1) (Some df2) (Some df3)
    (Some file_tpl) mode
  = MissingParts missing ->
  missing <> []
  /\ StronglySorted lt missing
  /\ forall x, In x missing ->
       referenced (generate_combinations (after_header mode (sanitize_df df3))) x
       /\ absent
            (generate_plate_maps (after_header mode (sanitize_df df1))
               (after_header mode (sanitize_df df2))) x.
Proof.
  rewrite golden_gate_some. cbv zeta.
  set (maps := generate_plate_maps _ _).
  set (combos := generate_combinations _).
  pose proof (find_missing_parts_in_maps_spec combos maps) as S.
  destruct (find_missing_parts_in_maps combos maps) as [[|x l]|] eqn:F;
    try discriminate.
  - destruct (96 <? List.length combos)%nat; [discriminate|].
    destruct (decode_utf8 (getvalue file_tpl)); [|discriminate].
    destruct (json_dumps float_repr (as_object maps)); [|discriminate].
    destruct (json_dumps float_repr (as_object combos)); discriminate.
  - intros Out. injection Out as <-. destruct S as [S [I _]].
    split; [discriminate|]. split; [exact S|exact I].
Qed.

(** X14. When the Colony PCR handler offers a protocol, the combinations
    are those of the recipe table (normalised, without its first row when
    the header answer is Yes), every part of every combination equals a
    value of the colony map or of the deck map, built from the whole
    normalised tables, the file is named colony_pcr_protocol.py, and the
    text ends with the decoded template. *)
Theorem colony_pcr_protocol_ready (df_col df_deck df_rec : DataFrame)
    (file_pcr_tpl : UploadedFile) (mode : header_mode)
    (preview : list Combination) (file_name data : str) :
  colony_pcr float_repr decode_utf8 (Some df_col) (Some df_deck) (Some df_rec)
    (Some file_pcr_tpl) mode
  = ProtocolReady preview file_name data ->
  preview = generate_combinations (after_header mode (sanitize_df df_rec))
  /\ (forall p, referenced preview p ->
        present
          (Dict [ (py "colony_template_map",
                   process_plate_map_df (sanitize_df df_col));
                  (py "pcr_deck_map",
                   process_plate_map_df (sanitize_df df_deck)) ]) p)
  /\ file_name = py "colony_pcr_protocol.py"
  /\ exists header template_body,
       decode_utf8 (getvalue file_pcr_tpl) = Ok template_body
       /\ data = header ++ template_body.
Proof.
  rewrite colony_pcr_some. cbv zeta.
  set (maps := Dict _).
  set (combos := generate_combinations _).
  destruct (find_missing_parts_in_maps combos maps) as [[|]|] eqn:F;
    try discriminate.
  destruct (decode_utf8 (getvalue file_pcr_tpl)) as [body|] eqn:D;
    try discriminate.
  destruct (json_dumps float_repr (as_object maps)); try discriminate.
  destruct (json_dumps float_repr (as_object combos)); try discriminate.
  intros Out. apply ProtocolReady_inj in Out as [<- [<- <-]].
  split; [reflexivity|].
  split; [now apply missing_empty_iff_present|].
  split; [reflexivity|].
  eexists _, body. split; reflexivity.
Qed.

(** X15. Each handler asks for the four files exactly when one of them was
    not uploaded; with the four files it always gives another answer. *)
Theorem upload_all_files (file_a file_b file_c : option DataFrame)
    (file_tpl : option UploadedFile) (mode : header_mode) :
  (golden_gate float_repr decode_utf8 file_a file_b file_c file_tpl mode
   = UploadAllFiles
   <-> file_a = None \/ file_b = None \/ file_c = None \/ file_tpl = None)
  /\ (colony_pcr float_repr decode_utf8 file_a file_b file_c file_tpl mode
      = UploadAllFiles
      <-> file_a = None \/ file_b = None \/ file_c = None \/ file_tpl = None).
Proof.
  destruct file_a as [a|], file_b as [b|], file_c as [c|], file_tpl as [t|];
    try (split; (split; [intros _; now auto 10|reflexivity])).
  split.
  - rewrite golden_gate_some. cbv zeta. split.
    + destruct (find_missing_parts_in_maps _ _) as [[|]|]; try discriminate.
      destruct (96 <? _)%nat; [discriminate|].
      destruct (decode_utf8 (getvalue t)); [|discriminate].
      destruct (json_dumps float_repr _); [|discriminate].
      destruct (json_dumps float_repr _); discriminate.
    + intros [H|[H|[H|H]]]; discriminate.
  - rewrite colony_pcr_some. cbv zeta. split.
    + destruct (find_missing_parts_in_maps _ _) as [[|]|]; try discriminate.
      destruct (decode_utf8 (getvalue t)); [|discriminate].
      destruct (json_dumps float_repr _); [|discriminate].
      destruct (json_dumps float_repr _); discriminate.
    + intros [H|[H|[H|H]]]; discriminate.
Qed.

(** X16. A combinations table without a usable row (only a header row, or
    only rows with an empty first cell) is no error for the Golden Gate
    handler: it offers a protocol with an empty list of combinations. *)
Theorem golden_gate_no_combinations (df1 df2 df3 : DataFrame)
    (file_tpl : UploadedFile) (mode : header_mode) :
  generate_combinations (after_header mode (sanitize_df df3)) = [] ->
  exists maps_json,
    json_dumps float_repr
      (as_object
         (generate_plate_maps (after_header mode (sanitize_df df1))
            (after_header mode (sanitize_df df2))))
    = Ok maps_json
    /\ golden_gate float_repr decode_utf8 (Some df1) (Some df2) (Some df3)
         (Some file_tpl) mode
       = match decode_utf8 (getvalue file_tpl) with
         | Ok template_body =>
             ProtocolReady [] (py "golden_gate_protocol.py")
               ((py "dna_plate_map_dict" ++ py " = "
                 ++ maps_json
                 ++ [10; 10]%N
                 ++ py "combinations_to_make" ++ py " = " ++ py "[]"
                 ++ [10; 10]%N)
                ++ template_body)
         | Raise e => ErrorMessage e
         end.
Proof.
  intros E.
  set (maps := generate_plate_maps _ _).
  pose proof (json_dumps_outcome float_repr (as_object maps)) as M.
  rewrite plate_maps_python in M. destruct M as [maps_json M].
  exists maps_json. split; [exact M|].
  rewrite golden_gate_some. cbv zeta. fold maps. rewrite E.
  change (find_missing_parts_in_maps [] ?m) with (@Ok (list scalar) []).
  cbv iota. change (96 <? List.length (@nil Combination))%nat with false.
  cbv iota.
  destruct (decode_utf8 (getvalue file_tpl)); [|reflexivity].
  rewrite M. reflexivity.
Qed.

End Handlers.

Lemma golden_gate_protocol_ready_witness :
  let float_repr := fun _ : pyfloat => py "0.5" in
  let decode_utf8 := fun b : list Byte.byte => Ok (List.map Byte.to_N b) in
  let file_tpl := {| getvalue := [Byte.x78; Byte.x0a] |} in
  let df1 := [mkRow (text "name") []; mkRow (text "A") [text "B"]] in
  let df2 := [mkRow (text "name") []; mkRow (text "D") []] in
  let df3 := [mkRow (text "combo") [text "p1"; text "p2"];
              mkRow (text "combo1") [text "A"; text "D"]] in
  let preview :=
    [ {| name := Str (py "combo1"); parts := [Str (py "A"); Str (py "D")] |} ] in
  let data :=
    dq "dna_plate_map_dict = {'PlateMap1': [['A', 'B']], 'PlateMap2': [['D']]}"
    ++ [10; 10]%N
    ++ dq "combinations_to_make = [{'name': 'combo1', 'parts': ['A', 'D']}]"
    ++ [10; 10; 120; 10]%N in
  golden_gate float_repr decode_utf8 (Some df1) (Some df2) (Some df3)
    (Some file_tpl) Yes
  = ProtocolReady preview (py "golden_gate_protocol.py") data
  /\ (List.length preview <= 96)%nat
  /\ exists header template_body,
       decode_utf8 (getvalue file_tpl) = Ok template_body
       /\ data = header ++ template_body.
Proof.
  intros float_repr decode_utf8 file_tpl df1 df2 df3 preview data.
  assert (H : golden_gate float_repr decode_utf8 (Some df1) (Some df2) (Some df3)
                (Some file_tpl) Yes
              = ProtocolReady preview (py "golden_gate_protocol.py") data)
    by (vm_compute; reflexivity).
  destruct (golden_gate_protocol_ready float_repr decode_utf8 df1 df2 df3
              file_tpl Yes preview _ data H) as [_ [L [_ [_ E]]]].
  split; [exact H|]. split; [exact L|exact E].
Defined.

Lemma golden_gate_max_combinations_witness :
  let float_repr := fun _ : pyfloat => py "0.5" in
  let decode_utf8 := fun b : list Byte.byte => Ok (List.map Byte.to_N b) in
  let file_tpl := {| getvalue := [Byte.x78; Byte.x0a] |} in
  let df1 := [mkRow (text "A1") []] in
  let df3 :=
    List.map (fun i => mkRow (Val (Str (py "combo" ++ int_repr (Z.of_nat i))))
                         [text "A1"])
      (seq 1 97) in
  let preview := generate_combinations df3 in
  golden_gate float_repr decode_utf8 (Some df1) (Some df1) (Some df3)
    (Some file_tpl) No
  = MaxCombinations preview
  /\ (96 < List.length preview)%nat.
Proof.
  intros float_repr decode_utf8 file_tpl df1 df3 preview.
  assert (H : golden_gate float_repr decode_utf8 (Some df1) (Some df1) (Some df3)
                (Some file_tpl) No
              = MaxCombinations preview)
    by (vm_compute; reflexivity).
  destruct (golden_gate_max_combinations float_repr decode_utf8 df1 df1 df3
              file_tpl No preview H) as [_ [L _]].
  split; [exact H|exact L].
Defined.

Lemma golden_gate_missing_parts_witness :
  let float_repr := fun _ : pyfloat => py "0.5" in
  let decode_utf8 := fun b : list Byte.byte => Ok (List.map Byte.to_N b) in
  let file_tpl := {| getvalue := [Byte.x78; Byte.x0a] |} in
  let df1 := [mkRow (text "A") [text "B"]] in
  let df3 := [mkRow (text "combo1") [text "Z"; text "A"; text "Q"]] in
  golden_gate float_repr decode_utf8 (Some df1) (Some df1) (Some df3)
    (Some file_tpl) No
  = MissingParts [Str (py "Q"); Str (py "Z")]
  /\ StronglySorted lt [Str (py "Q"); Str (py "Z")].
Proof.
  intros float_repr decode_utf8 file_tpl df1 df3.
  assert (H : golden_gate float_repr decode_utf8 (Some df1) (Some df1) (Some df3)
                (Some file_tpl) No
              = MissingParts [Str (py "Q"); Str (py "Z")])
    by (vm_compute; reflexivity).
  destruct (golden_gate_missing_parts float_repr decode_utf8 df1 df1 df3
              file_tpl No _ H) as [_ [S _]].
  split; [exact H|exact S].
Defined.

Lemma colony_pcr_protocol_ready_witness :
  let float_repr := fun _ : pyfloat => py "0.5" in
  let decode_utf8 := fun b : list Byte.byte => Ok (List.map Byte.to_N b) in
  let file_pcr_tpl := {| getvalue := [Byte.x78; Byte.x0a] |} in
  let df_col := [mkRow (text "A1") []] in
  let df_deck := [mkRow (text "mix") []] in
  let df_rec := [mkRow (text "name") [text "p1"; text "p2"];
                 mkRow (text "r1") [text "A1"; text "mix"]] in
  let preview :=
    [ {| name := Str (py "r1"); parts := [Str (py "A1"); Str (py "mix")] |} ] in
  let data :=
    dq "pcr_deck_colony_template_maps_dict = {'colony_template_map': [['A1']], 'pcr_deck_map': [['mix']]}"
    ++ [10; 10]%N
    ++ dq "pcr_recipe_to_make = [{'name': 'r1', 'parts': ['A1', 'mix']}]"
    ++ [10; 10; 120; 10]%N in
  colony_pcr float_repr decode_utf8 (Some df_col) (Some df_deck) (Some df_rec)
    (Some file_pcr_tpl) Yes
  = ProtocolReady preview (py "colony_pcr_protocol.py") data
  /\ exists header template_body,
       decode_utf8 (getvalue file_pcr_tpl) = Ok template_body
       /\ data = header ++ template_body.
Proof.
  intros float_repr decode_utf8 file_pcr_tpl df_col df_deck df_rec preview data.
  assert (H : colony_pcr float_repr decode_utf8 (Some df_col) (Some df_deck)
                (Some df_rec) (Some file_pcr_tpl) Yes
              = ProtocolReady preview (py "colony_pcr_protocol.py") data)
    by (vm_compute; reflexivity).
  destruct (colony_pcr_protocol_ready float_repr decode_utf8 df_col df_deck
              df_rec file_pcr_tpl Yes preview _ data H) as [_ [_ [_ E]]].
  split; [exact H|exact E].
Defined.

Lemma golden_gate_no_combinations_witness :
  let float_repr := fun _ : pyfloat => py "0.5" in
  let decode_utf8 := fun b : list Byte.byte => Ok (List.map Byte.to_N b) in
  let file_tpl := {| getvalue := [Byte.x78; Byte.x0a] |} in
  let df1 := [mkRow (text "name") []; mkRow (text "A") [text "B"]] in
  let df3 := [mkRow (text "combo") [text "p1"; text "p2"]] in
  generate_combinations (after_header Yes (sanitize_df df3)) = []
  /\ golden_gate float_repr decode_utf8 (Some df1) (Some df1) (Some df3)
       (Some file_tpl) Yes
     = ProtocolReady [] (py "golden_gate_protocol.py")
         (dq "dna_plate_map_dict = {'PlateMap1': [['A', 'B']], 'PlateMap2': [['A', 'B']]}"
          ++ [10; 10]%N ++ py "combinations_to_make = []"
          ++ [10; 10; 120; 10]%N).
Proof.
  intros float_repr decode_utf8 file_tpl df1 df3.
  assert (H : generate_combinations (after_header Yes (sanitize_df df3)) = [])
    by reflexivity.
  split; [exact H|].
  destruct (golden_gate_no_combinations float_repr decode_utf8 df1 df1 df3
              file_tpl Yes H) as [maps_json [M G]].
  assert (J : json_dumps float_repr
                (as_object
                   (generate_plate_maps (after_header Yes (sanitize_df df1))
                      (after_header Yes (sanitize_df df1))))
              = Ok (dq "{'PlateMap1': [['A', 'B']], 'PlateMap2': [['A', 'B']]}"))
    by (vm_compute; reflexivity).
  pose proof (Ok_inj _ _ (eq_trans (eq_sym M) J)) as Q.
  eapply eq_trans; [exact G|]. rewrite Q. vm_compute. reflexivity.
Defined.
